(** * pyFDA, [pyfda/plot_widgets/plot_impz.py]: the transient-response engine

    A shallow embedding of [PlotImpz.calc] and [PlotImpz.calc_n_points].

    Samples are real numbers: NumPy's float64 arithmetic is idealised by exact
    arithmetic on [R], and complex128 by pairs of reals.  NumPy and SciPy
    routines called by the source ([linspace], [sign], [sawtooth], [lfilter],
    [sosfilt], [filtfilt], [freqz], [real_if_close], [iscomplex]) are modelled
    by their documented formulas; their own argument validation is outside the
    development. *)

From Stdlib Require Import String.
From Stdlib Require Import Reals Lra Lia List Bool Arith.
Import ListNotations.

Local Open Scope R_scope.

(** ** Numbers *)

Module Num.

(** complex128 as a pair (real part, imaginary part) *)
Definition C : Type := (R * R)%type.

Definition re (z : C) : R := fst z.
Definition im (z : C) : R := snd z.
Definition RtoC (r : R) : C := (r, 0).

Definition Cadd (u v : C) : C := (re u + re v, im u + im v).
Definition Csub (u v : C) : C := (re u - re v, im u - im v).
Definition Cmul (u v : C) : C :=
  (re u * re v - im u * im v, re u * im v + im u * re v).
(** Division by a complex number other than 0; NumPy's quotient by 0 is
    [inf] or [nan], which no real number stands for, and statements that
    divide assume a divisor other than 0. *)
Definition Cdiv (u v : C) : C :=
  let d := re v * re v + im v * im v in
  ((re u * re v + im u * im v) / d, (im u * re v - re u * im v) / d).
(** [abs] of a complex number *)
Definition Cabs (z : C) : R := sqrt (re z * re z + im z * im z).

(** The arithmetic shared by the real and the complex sample type. *)
Class Field (K : Type) := {
  zero : K;
  add : K -> K -> K;
  sub : K -> K -> K;
  mul : K -> K -> K;
  div : K -> K -> K
}.

#[export] Instance Field_R : Field R :=
  {| zero := 0; add := Rplus; sub := Rminus; mul := Rmult; div := Rdiv |}.

#[export] Instance Field_C : Field C :=
  {| zero := RtoC 0; add := Cadd; sub := Csub; mul := Cmul; div := Cdiv |}.

(** [sum] of a coefficient vector *)
Definition Csum (l : list C) : C := fold_right Cadd (RtoC 0) l.

End Num.
Export Num.

(** ** Arrays *)

(** A one-dimensional [numpy.ndarray] with its dtype: float64 or complex128. *)
Inductive ndarray : Type :=
| RealArr (l : list R)
| CplxArr (l : list C).

(** [len(a)] *)
Definition alen (a : ndarray) : nat :=
  match a with
  | RealArr l => length l
  | CplxArr l => length l
  end.

Definition is_cplx (a : ndarray) : bool :=
  match a with
  | RealArr _ => false
  | CplxArr _ => true
  end.

(** [a.astype(complex)] *)
Definition as_cplx (a : ndarray) : list C :=
  match a with
  | RealArr l => map RtoC l
  | CplxArr l => l
  end.

(** [a.real] *)
Definition real_part (a : ndarray) : list R :=
  match a with
  | RealArr l => l
  | CplxArr l => map re l
  end.

(** [a.imag]: zeros for a float64 array *)
Definition imag_part (a : ndarray) : list R :=
  match a with
  | RealArr l => map (fun _ => 0) l
  | CplxArr l => map im l
  end.

(** Elementwise combination of two equally long vectors. *)
Fixpoint map2 {A B D : Type} (f : A -> B -> D) (u : list A) (v : list B)
  : list D :=
  match u, v with
  | a :: u', b :: v' => f a b :: map2 f u' v'
  | _, _ => []
  end.

(** ** SciPy's linear filters *)

Section DirectForm.

Context {K : Type} `{Field K}.

(** Coefficient vectors are zero-padded to the common length
    [n = max(len(a), len(b))] and divided by [a[0]]. *)
Definition pad_to (n : nat) (l : list K) : list K :=
  l ++ repeat zero (n - length l).

Definition normalized (n : nat) (a0 : K) (l : list K) : list K :=
  map (fun c => div c a0) (pad_to n l).

(** One sample of the transposed direct form II:
    [y = z[0] + b[0]*x],
    [z[i] = z[i+1] + b[i+1]*x - a[i+1]*y], the last delay taking [0] for
    [z[n-1]]. *)
Definition df2t_out (b z : list K) (x : K) : K :=
  add (hd zero z) (mul (hd zero b) x).

Definition df2t_next (b a z : list K) (x y : K) : list K :=
  map2 (fun zn ba => sub (add zn (mul (fst ba) x)) (mul (snd ba) y))
       (tl z ++ [zero]) (combine (tl b) (tl a)).

Fixpoint df2t_run (b a z : list K) (xs : list K) : list K :=
  match xs with
  | [] => []
  | x :: xs' =>
      let y := df2t_out b z x in
      y :: df2t_run b a (df2t_next b a z x y) xs'
  end.

(** [scipy.signal.lfilter(b, a, x, zi=zi)], output only. *)
Definition lfilter_zi_run (b a zi xs : list K) : list K :=
  let n := Nat.max (length a) (length b) in
  let a0 := hd zero a in
  df2t_run (normalized n a0 b) (normalized n a0 a) zi xs.

(** [scipy.signal.lfilter(b, a, x)]: the delays start at rest.  This is
    the array SciPy returns; for [a[0] == 0] SciPy raises ValueError
    instead, see [scipy_accepts]. *)
Definition lfilter_run (b a xs : list K) : list K :=
  lfilter_zi_run b a
    (repeat zero (Nat.max (length a) (length b) - 1)) xs.

(** [scipy.signal.filtfilt(b, a, x, axis=-1, padtype=None)]: no padding;
    a forward pass started in the steady state [zi * x[0]], then a pass
    over the reversed output started in [zi * y[-1]], reversed again.
    [zi] is [lfilter_zi(b, a)]. *)
Definition filtfilt_run (zi b a xs : list K) : list K :=
  let x0 := hd zero xs in
  let y := lfilter_zi_run b a (map (fun c => mul c x0) zi) xs in
  let y0 := last y zero in
  rev (lfilter_zi_run b a (map (fun c => mul c y0) zi) (rev y)).

End DirectForm.

(** One second-order section: [b0, b1, b2, a0, a1, a2]. *)
Record biquad : Type := {
  sb0 : R; sb1 : R; sb2 : R;
  sa0 : R; sa1 : R; sa2 : R
}.

Section SciPy.

(** [scipy.signal.lfilter_zi] solves a linear system for the steady-state
    delays of the step response; the solver is a parameter of the
    development, for real and for complex coefficients.  The parameter is
    the solution where there is one; for a singular system ([sum(a) == 0])
    SciPy raises LinAlgError instead, see [scipy_accepts]. *)
Variable lfilter_zi : forall K : Type, Field K -> list K -> list K -> list K.

(** dtype promotion of [lfilter] and [filtfilt]: the result is complex128
    as soon as one of [b], [a], [x] is. *)
Definition promote (f : forall K : Type, Field K -> list K -> list K -> list K -> list K)
           (b a x : ndarray) : ndarray :=
  match b, a, x with
  | RealArr lb, RealArr la, RealArr lx => RealArr (f R Field_R lb la lx)
  | _, _, _ => CplxArr (f C Field_C (as_cplx b) (as_cplx a) (as_cplx x))
  end.

Definition lfilter (b a x : ndarray) : ndarray :=
  promote (fun K F => @lfilter_run K F) b a x.

Definition filtfilt (b a x : ndarray) : ndarray :=
  promote (fun K F lb la => @filtfilt_run K F (lfilter_zi K F lb la) lb la) b a x.

(** [scipy.signal.sosfilt(sos, x)]: the sections in series, each one an
    [lfilter] with three taps fed by the previous section's output. *)
Fixpoint sosfilt (sos : list biquad) (x : ndarray) : ndarray :=
  match sos with
  | [] => x
  | s :: sos' =>
      sosfilt sos'
        (lfilter (RealArr [sb0 s; sb1 s; sb2 s])
                 (RealArr [sa0 s; sa1 s; sa2 s]) x)
  end.

End SciPy.

(** ** NumPy helpers *)

Definition Rltb (u v : R) : bool := if Rlt_dec u v then true else false.
Definition Reqb (u v : R) : bool := if Req_dec_T u v then true else false.

(** [numpy.linspace(start, stop, num, endpoint=False)] *)
Definition linspace (start stop : R) (num : nat) : list R :=
  map (fun k => start + INR k * ((stop - start) / INR num)) (seq 0 num).

(** [numpy.sign] *)
Definition sign (r : R) : R :=
  if Rltb 0 r then 1 else if Rltb r 0 then -1 else 0.

(** [scipy.signal.sawtooth(v)] with the default width 1:
    [mod(v, 2*pi) / pi - 1]. *)
Definition sawtooth (v : R) : R :=
  (v - 2 * PI * IZR (Int_part (v / (2 * PI)))) / PI - 1.

(** [numpy.polyval(p, z)], Horner's scheme from the leading coefficient. *)
Definition polyval (p : list C) (z : C) : C :=
  fold_left (fun acc c => Cadd (Cmul acc z) c) p (RtoC 0).

(** [exp(1j * theta)] *)
Definition Cexp_j (theta : R) : C := (cos theta, sin theta).

(** [scipy.signal.freqz(b, a, worN)[1]]: the frequency response at the
    given angular frequencies,
    [polyval(b[::-1], exp(-1j*w)) / polyval(a[::-1], exp(-1j*w))]. *)
Definition freqz (b a : ndarray) (worN : list R) : list C :=
  map (fun w =>
         let zm1 := Cexp_j (- w) in
         Cdiv (polyval (rev (as_cplx b)) zm1) (polyval (rev (as_cplx a)) zm1))
      worN.

(** [y - g] for a float64 vector [g]: a vector of shape (1,) is broadcast
    along [y], equally long vectors are subtracted elementwise. *)
Definition broadcast_sub (y : ndarray) (g : list R) : ndarray :=
  match g with
  | [g0] =>
      match y with
      | RealArr l => RealArr (map (fun v => v - g0) l)
      | CplxArr l => CplxArr (map (fun v => (re v - g0, im v)) l)
      end
  | _ =>
      match y with
      | RealArr l => RealArr (map2 Rminus l g)
      | CplxArr l => CplxArr (map2 (fun v r => (re v - r, im v)) l g)
      end
  end.

(** [numpy.finfo(float).eps] *)
Definition eps : R := / 2 ^ 52.

(** [numpy.real_if_close(a, tol)]: a complex array all of whose imaginary
    parts are below the tolerance in absolute value is replaced by its real
    part; a tolerance above 1 is counted in machine epsilons. *)
Definition real_if_close (a : ndarray) (tol : R) : ndarray :=
  match a with
  | RealArr _ => a
  | CplxArr l =>
      let tol' := if Rltb 1 tol then eps * tol else tol in
      if forallb (fun z => Rltb (Rabs (im z)) tol') l
      then RealArr (map re l)
      else a
  end.

(** [numpy.iscomplex(a)]: elementwise, a non-zero imaginary part. *)
Definition iscomplex (a : ndarray) : list bool :=
  match a with
  | RealArr l => map (fun _ => false) l
  | CplxArr l => map (fun z => negb (Reqb (im z) 0)) l
  end.

(** [numpy.any] *)
Definition any (l : list bool) : bool := existsb (fun b => b) l.

(** [x[0] = v]; [None] stands for the IndexError on an empty array. *)
Definition setitem0 (l : list R) (v : R) : option (list R) :=
  match l with
  | [] => None
  | _ :: l' => Some (v :: l')
  end.

(** [x[n0:] += v] *)
Definition iadd_from (n0 : nat) (l v : list R) : list R :=
  firstn n0 l ++ map2 Rplus (skipn n0 l) v.

(** ** Python values tested for truth *)

Inductive pyobj : Type :=
| PyBool (b : bool)
| PyBoundMethod (call : unit -> bool).

(** The truth value of [if obj:]; a bound method object is always true. *)
Definition truth (o : pyobj) : bool :=
  match o with
  | PyBool b => b
  | PyBoundMethod _ => true
  end.

(** A Qt line-edit widget, as far as the engine looks at it. *)
Record QLineEdit : Type := { visible : bool }.

(** The attribute [w.isVisible]: the method itself, not its result. *)
Definition isVisible (w : QLineEdit) : pyobj :=
  PyBoundMethod (fun _ => visible w).

(** ** The engine's surroundings *)

(** [self.ui], the attributes of [PlotImpz_UI] read by [calc];
    [N_points] is the value of
    [safe_eval(self.ui.ledN_points.text(), 0, return_type='int', sign='pos')]. *)
Record PlotImpz_UI : Type := {
  N_points : nat;
  N_start : nat;
  cmbStimulus : string;
  A1 : R; A2 : R;
  phi1 : R; phi2 : R;
  noise : string;
  noi : R;
  DC : R;
  ledDC : QLineEdit
}.

(** [fb.fil[0]], the keys of the filter dictionary read by the engine;
    [zpkA] tells whether the key ['zpkA'] is in the dictionary. *)
Record filter_dict : Type := {
  f_S : R;
  ft : string;
  ba : ndarray * ndarray;
  sos : list biquad;
  zpkA : bool
}.

(** A number in [0, 1), as [numpy.random.rand] draws them. *)
Record unit_sample : Type := {
  u_val : R;
  u_range : 0 <= u_val < 1
}.

(** [numpy.random]: the samples the process-wide generator hands out next. *)
Record np_random : Type := {
  normal_stream : nat -> R;
  uniform_stream : nat -> unit_sample
}.

(** [numpy.random.randn(k)] *)
Definition randn (g : np_random) (k : nat) : list R :=
  map (normal_stream g) (seq 0 k).

(** [numpy.random.rand(k)] *)
Definition rand (g : np_random) (k : nat) : list R :=
  map (fun i => u_val (uniform_stream g i)) (seq 0 k).

(** ** The widget's state *)

(** The attributes of [self] that [calc] reads or assigns. *)
Record PlotImpz : Type := {
  f1 : R; f2 : R;
  N : nat;
  t : list R;
  x : list R;
  title_str : string;
  H_str : string;
  bb : ndarray;
  aa : ndarray;
  cmplx : bool;
  y : ndarray;
  y_i : option ndarray
}.

Definition with_N (s : PlotImpz) (v : nat) : PlotImpz :=
  {| f1 := f1 s; f2 := f2 s; N := v; t := t s; x := x s;
     title_str := title_str s; H_str := H_str s; bb := bb s; aa := aa s;
     cmplx := cmplx s; y := y s; y_i := y_i s |}.

Definition with_t (s : PlotImpz) (v : list R) : PlotImpz :=
  {| f1 := f1 s; f2 := f2 s; N := N s; t := v; x := x s;
     title_str := title_str s; H_str := H_str s; bb := bb s; aa := aa s;
     cmplx := cmplx s; y := y s; y_i := y_i s |}.

Definition with_x (s : PlotImpz) (v : list R) : PlotImpz :=
  {| f1 := f1 s; f2 := f2 s; N := N s; t := t s; x := v;
     title_str := title_str s; H_str := H_str s; bb := bb s; aa := aa s;
     cmplx := cmplx s; y := y s; y_i := y_i s |}.

Definition with_labels (s : PlotImpz) (title h : string) : PlotImpz :=
  {| f1 := f1 s; f2 := f2 s; N := N s; t := t s; x := x s;
     title_str := title; H_str := h; bb := bb s; aa := aa s;
     cmplx := cmplx s; y := y s; y_i := y_i s |}.

Definition with_ba (s : PlotImpz) (b a : ndarray) : PlotImpz :=
  {| f1 := f1 s; f2 := f2 s; N := N s; t := t s; x := x s;
     title_str := title_str s; H_str := H_str s; bb := b; aa := a;
     cmplx := cmplx s; y := y s; y_i := y_i s |}.

Definition with_response (s : PlotImpz) (c : bool) (v : ndarray)
           (vi : option ndarray) : PlotImpz :=
  {| f1 := f1 s; f2 := f2 s; N := N s; t := t s; x := x s;
     title_str := title_str s; H_str := H_str s; bb := bb s; aa := aa s;
     cmplx := c; y := v; y_i := vi |}.

(** ** How a call ends *)

Inductive exn : Type := IndexError.

(** What [logger.error] is called with. *)
Inductive error : Type :=
| UnknownStimulus (stim : string)
| NoProperCoefficients.

(** A call runs to its last line ([Done]), logs an error and returns early
    ([Reported]), or is left by an exception ([Raised]); each time with the
    attributes as assigned so far. *)
Inductive outcome : Type :=
| Done (s : PlotImpz)
| Reported (e : error) (s : PlotImpz)
| Raised (e : exn) (s : PlotImpz).

Definition bind (o : outcome) (k : PlotImpz -> outcome) : outcome :=
  match o with
  | Done s => k s
  | _ => o
  end.

Notation "s <- o ;; k" := (bind o (fun s => k))
  (at level 61, o at next level, right associativity).

(** The attributes after the call, however it ended. *)
Definition final (o : outcome) : PlotImpz :=
  match o with
  | Done s => s
  | Reported _ s => s
  | Raised _ s => s
  end.

(** ** [PlotImpz.calc_n_points] and [PlotImpz.calc] *)

Section Engine.

Variable lfilter_zi : forall K : Type, Field K -> list K -> list K -> list K.

Variable ui : PlotImpz_UI.
Variable fil : filter_dict.
Variable rng : np_random.

(** [calc_n_points(N_user)] *)
Definition calc_n_points (N_user : nat) : nat :=
  if (N_user =? 0)%nat then
    if (ft fil =? "IIR")%string then 100%nat
    else Nat.min (alen (fst (ba fil))) 100
  else N_user.

(** Lines 220-227: the number of points and the time vector. *)
Definition time_axis (s : PlotImpz) : PlotImpz :=
  let N_user := N_points ui in
  let s := if (N_user =? 0)%nat
           then with_N s (calc_n_points N_user)
           else with_N s N_user in
  let s := with_N s (N s + N_start ui) in
  with_t s (linspace 0 (INR (N s) / f_S fil) (N s)).

(** Lines 230-270: the stimulus and its labels. *)
Definition stimulus (s : PlotImpz) : outcome :=
  let stim := cmbStimulus ui in
  if (stim =? "Pulse")%string then
    let s := with_x s (repeat 0 (N s)) in
    match setitem0 (x s) (A1 ui) with
    | None => Raised IndexError s
    | Some x' =>
        Done (with_labels (with_x s x') "Impulse Response" "$h[n]$")
    end
  else if (stim =? "Step")%string then
    let s := with_x s (map (fun o => A1 ui * o) (repeat 1 (N s))) in
    Done (with_labels s "Step Response" "$h_{\epsilon}[n]$")
  else if (stim =? "StepErr")%string then
    let s := with_x s (map (fun o => A1 ui * o) (repeat 1 (N s))) in
    Done (with_labels s "Settling Error"
            "$h_{\epsilon, \infty} - h_{\epsilon}[n]$")
  else if (stim =? "Cos")%string then
    let s := with_x s
               (map (fun tn => A1 ui * cos (2 * PI * tn * f1 s)) (t s)) in
    Done (with_labels s "Transient Response to Cosine Signal"
            "$y_{\cos}[n]$")
  else if (stim =? "Sine")%string then
    let s := with_x s
               (map (fun tn =>
                       A1 ui * sin (2 * PI * tn * f1 s + phi1 ui)
                       + A2 ui * sin (2 * PI * tn * f2 s + phi2 ui))
                    (t s)) in
    Done (with_labels s "Transient Response to Sinusoidal Signal"
            "$y_{\sin}[n]$")
  else if (stim =? "Rect")%string then
    let s := with_x s
               (map (fun tn => A1 ui * sign (sin (2 * PI * tn * f1 s)))
                    (t s)) in
    Done (with_labels s "Transient Response to Rect. Signal"
            "$y_{rect}[n]$")
  else if (stim =? "Saw")%string then
    let s := with_x s
               (map (fun tn => A1 ui * sawtooth (tn * f1 s * 2 * PI))
                    (t s)) in
    Done (with_labels s "Transient Response to Sawtooth Signal"
            "$y_{saw}[n]$")
  else Reported (UnknownStimulus stim) s.

(** Lines 272-276: noise on the samples from [N_start] on. *)
Definition add_noise (s : PlotImpz) : PlotImpz :=
  if (noise ui =? "gauss")%string then
    with_x s (iadd_from (N_start ui) (x s)
                (map (fun g => noi ui * g)
                     (randn rng (N s - N_start ui))))
  else if (noise ui =? "uniform")%string then
    with_x s (iadd_from (N_start ui) (x s)
                (map (fun u => noi ui * (u - 1 / 2))
                     (rand rng (N s - N_start ui))))
  else s.

(** Lines 278-280: [if self.ui.ledDC.isVisible: self.x += self.ui.DC]. *)
Definition add_dc (s : PlotImpz) : PlotImpz :=
  if truth (isVisible (ledDC ui))
  then with_x s (map (fun v => v + DC ui) (x s))
  else s.

(** Lines 283-287: the coefficients and the test for a proper filter. *)
Definition coefficients (s : PlotImpz) : outcome :=
  let s := with_ba s (fst (ba fil)) (snd (ba fil)) in
  if (Nat.min (alen (aa s)) (alen (bb s)) <? 2)%nat
  then Reported NoProperCoefficients s
  else Done s.

(** Lines 289-298: the choice of the filtering routine. *)
Definition response (s : PlotImpz) : ndarray :=
  let antiCausal := zpkA fil in
  let causal := negb antiCausal in
  if (0 <? length (sos fil))%nat && causal then
    sosfilt (sos fil) (RealArr (x s))
  else if antiCausal then
    filtfilt lfilter_zi (bb s) (aa s) (RealArr (x s))
  else
    lfilter (bb s) (aa s) (RealArr (x s)).

(** Lines 302-304: the final value is taken off the step response. *)
Definition settling (s : PlotImpz) (yv : ndarray) : ndarray :=
  if (cmbStimulus ui =? "StepErr")%string then
    let dc := freqz (bb s) (aa s) [0] in
    broadcast_sub yv (map Cabs dc)
  else yv.

(** Lines 306-313: the real and the imaginary part of the response. *)
Definition store (s : PlotImpz) (yv : ndarray) : PlotImpz :=
  let yv := real_if_close yv 1000 in
  let c := any (iscomplex yv) in
  if c
  then with_response s c (RealArr (real_part yv))
                     (Some (RealArr (imag_part yv)))
  else with_response s c yv None.

(** [calc(self)] *)
Definition calc (s : PlotImpz) : outcome :=
  s <- stimulus (time_axis s) ;;
  s <- coefficients (add_dc (add_noise s)) ;;
  Done (store s (settling s (response s))).

End Engine.

(** ** Notions used in the statements *)

(** The stimulus kinds [calc] has a branch for. *)
Definition recognised (stim : string) : bool :=
  existsb (String.eqb stim)
    ["Pulse"; "Step"; "StepErr"; "Cos"; "Sine"; "Rect"; "Saw"]%string.

(** The point count before [N_start] is added (lines 220-224). *)
Definition resolved_points (ui : PlotImpz_UI) (fil : filter_dict) : nat :=
  if (N_points ui =? 0)%nat then calc_n_points fil (N_points ui)
  else N_points ui.

(** Two states hold the same response. *)
Definition same_response (s s' : PlotImpz) : Prop :=
  cmplx s' = cmplx s /\ y s' = y s /\ y_i s' = y_i s.

(** Two states differ at most in the stimulus and its labels. *)
Definition same_but_stimulus (s s' : PlotImpz) : Prop :=
  f1 s' = f1 s /\ f2 s' = f2 s /\ N s' = N s /\ t s' = t s /\
  bb s' = bb s /\ aa s' = aa s /\ same_response s s'.

(** The coefficient test of line 285 fails. *)
Definition degenerate (fil : filter_dict) : Prop :=
  (Nat.min (alen (snd (ba fil))) (alen (fst (ba fil))) < 2)%nat.

(** [a[0]], as a complex number *)
Definition leading (a : ndarray) : C := hd (RtoC 0) (as_cplx a).

(** The filter is one the SciPy routine chosen by [calc] returns a result
    for, rather than raising: on the cascade path every section has
    [a0 = 1]; on the two paths through [(b, a)] the leading denominator
    coefficient is not 0, as [lfilter] requires, and on the anti-causal path
    the denominator coefficients do not sum to 0, as [lfilter_zi]
    requires. *)
Definition scipy_accepts (fil : filter_dict) : Prop :=
  if (0 <? length (sos fil))%nat && negb (zpkA fil)
  then Forall (fun sec => sa0 sec = 1) (sos fil)
  else leading (snd (ba fil)) <> RtoC 0 /\
       (zpkA fil = true -> Csum (as_cplx (snd (ba fil))) <> RtoC 0).

(** The magnitude of the gain at frequency zero of [(b, a)]. *)
Definition dc_gain (b a : ndarray) : R :=
  Cabs (Cdiv (Csum (as_cplx b)) (Csum (as_cplx a))).

(** Some entry of [a.imag] is not zero. *)
Definition has_imaginary (a : ndarray) : Prop :=
  exists v, In v (imag_part a) /\ v <> 0.

(** The largest magnitude among the samples of an array. *)
Definition signal_scale (a : ndarray) : R :=
  fold_right Rmax 0 (map Cabs (as_cplx a)).

(** One large sample with an imaginary part of 1. *)
Definition large_sample : ndarray := CplxArr [(4503599627370496, 1)].

(** ** Sample settings *)

Module Samples.

(** delays at rest *)
Definition zi_rest : forall K : Type, Field K -> list K -> list K -> list K :=
  fun K F b a => repeat zero (Nat.max (length a) (length b) - 1).

Definition quiet : np_random :=
  {| normal_stream := fun _ => 0;
     uniform_stream :=
       fun _ => {| u_val := 0; u_range := conj (Rle_refl 0) Rlt_0_1 |} |}.

Definition hidden : QLineEdit := {| visible := false |}.

Definition ui_of (stim noise_kind : string) (dc : R) : PlotImpz_UI :=
  {| N_points := 0; N_start := 0; cmbStimulus := stim;
     A1 := 1; A2 := 0; phi1 := 0; phi2 := 0;
     noise := noise_kind; noi := 1; DC := dc; ledDC := hidden |}.

Definition fir (b a : list R) : filter_dict :=
  {| f_S := 1; ft := "FIR"; ba := (RealArr b, RealArr a);
     sos := []; zpkA := false |}.

(** the attributes left by some earlier call *)
Definition earlier : PlotImpz :=
  {| f1 := 0; f2 := 0; N := 1; t := [0]; x := [7];
     title_str := "Impulse Response"; H_str := "$h[n]$";
     bb := RealArr [1; 0]; aa := RealArr [1; 0];
     cmplx := false; y := RealArr [7]; y_i := None |}.

End Samples.

(** ** The display side of the widget *)

(** The widgets whose text the module writes. *)
Inductive widget : Type :=
| ledFreq1 | ledFreq2 | lblFreqUnit1 | lblFreqUnit2 | ledLogBottom.

Definition widget_eqb (u v : widget) : bool :=
  match u, v with
  | ledFreq1, ledFreq1 | ledFreq2, ledFreq2
  | lblFreqUnit1, lblFreqUnit1 | lblFreqUnit2, lblFreqUnit2
  | ledLogBottom, ledLogBottom => true
  | _, _ => false
  end.

(** One call of [stem]: the abscissae, the ordinates, the baseline, the
    marker format when the call gives one, and the label. *)
Record stem_plot : Type := {
  stem_t : list R;
  stem_y : ndarray;
  stem_bottom : R;
  stem_marker : option string;
  stem_label : string
}.

(** What [init_axes] and [draw_impz] put on the figure; calls that only
    style the plot (ticks, colours, limits, spacing) are not recorded. *)
Record canvas : Type := {
  two_axes : bool;
  resp_stem : option stem_plot;
  stim_stem : option stem_plot;
  imag_stem : option stem_plot;
  title : option string;
  xlabel_r : option string;
  xlabel_i : option string;
  ylabel_r : option string;
  ylabel_i : option string
}.

(** What the module hands to [logger.error]. *)
Inductive log_entry : Type :=
| CalcError (e : error)
| DictNotUnderstood.

(** The widget with its user interface: the attributes computed by [calc],
    [self.spec_edited] (None while it has not been assigned), the texts of
    the widgets, the widget holding the input focus, [self.ui.bottom], the
    state of the control frame, the figure, and the error log. *)
Record window : Type := {
  engine : PlotImpz;
  spec_edited : option bool;
  text : widget -> string;
  focus : option widget;
  bottom : R;
  frmControls_enabled : bool;
  figure : option canvas;
  logged : list log_entry
}.

Definition with_engine (w : window) (v : PlotImpz) : window :=
  {| engine := v; spec_edited := spec_edited w; text := text w;
     focus := focus w; bottom := bottom w;
     frmControls_enabled := frmControls_enabled w; figure := figure w;
     logged := logged w |}.

Definition with_spec_edited (w : window) (v : bool) : window :=
  {| engine := engine w; spec_edited := Some v; text := text w;
     focus := focus w; bottom := bottom w;
     frmControls_enabled := frmControls_enabled w; figure := figure w;
     logged := logged w |}.

(** [wd.setText(v)] *)
Definition setText (w : window) (wd : widget) (v : string) : window :=
  {| engine := engine w; spec_edited := spec_edited w;
     text := fun u => if widget_eqb u wd then v else text w u;
     focus := focus w; bottom := bottom w;
     frmControls_enabled := frmControls_enabled w; figure := figure w;
     logged := logged w |}.

Definition with_focus (w : window) (v : option widget) : window :=
  {| engine := engine w; spec_edited := spec_edited w; text := text w;
     focus := v; bottom := bottom w;
     frmControls_enabled := frmControls_enabled w; figure := figure w;
     logged := logged w |}.

Definition with_bottom (w : window) (v : R) : window :=
  {| engine := engine w; spec_edited := spec_edited w; text := text w;
     focus := focus w; bottom := v;
     frmControls_enabled := frmControls_enabled w; figure := figure w;
     logged := logged w |}.

Definition with_frmControls (w : window) (v : bool) : window :=
  {| engine := engine w; spec_edited := spec_edited w; text := text w;
     focus := focus w; bottom := bottom w;
     frmControls_enabled := v; figure := figure w; logged := logged w |}.

Definition with_figure (w : window) (v : canvas) : window :=
  {| engine := engine w; spec_edited := spec_edited w; text := text w;
     focus := focus w; bottom := bottom w;
     frmControls_enabled := frmControls_enabled w; figure := Some v;
     logged := logged w |}.

Definition log_error (w : window) (v : log_entry) : window :=
  {| engine := engine w; spec_edited := spec_edited w; text := text w;
     focus := focus w; bottom := bottom w;
     frmControls_enabled := frmControls_enabled w; figure := figure w;
     logged := v :: logged w |}.

Definition with_f1 (s : PlotImpz) (v : R) : PlotImpz :=
  {| f1 := v; f2 := f2 s; N := N s; t := t s; x := x s;
     title_str := title_str s; H_str := H_str s; bb := bb s; aa := aa s;
     cmplx := cmplx s; y := y s; y_i := y_i s |}.

Definition with_f2 (s : PlotImpz) (v : R) : PlotImpz :=
  {| f1 := f1 s; f2 := v; N := N s; t := t s; x := x s;
     title_str := title_str s; H_str := H_str s; bb := bb s; aa := aa s;
     cmplx := cmplx s; y := y s; y_i := y_i s |}.

(** The exceptions that leave a method of the widget. *)
Inductive py_exn : Type :=
| FromCalc (e : exn)
| AttributeError
| TypeError.

(** A method returns ([Ok]) or is left by an exception ([Fail]), each time
    with the window as it is by then. *)
Inductive result : Type :=
| Ok (w : window)
| Fail (e : py_exn) (w : window).

Definition and_then (r : result) (k : window -> result) : result :=
  match r with
  | Ok w => k w
  | Fail _ _ => r
  end.

(** The window after the method, however it ended. *)
Definition window_of (r : result) : window :=
  match r with
  | Ok w => w
  | Fail _ w => w
  end.

(** What the widget reads and does not write: the tool bar, the check
    boxes, two keys of the filter dictionary and the object names of the
    widgets. *)
Record settings : Type := {
  toolbar_enabled : bool;
  chkLog : bool;
  chkMarker : bool;
  chkPltResp : bool;
  chkPltStim : bool;
  freq_specs_unit : string;
  plt_tLabel : string;
  objectName : widget -> string
}.

(** [a[n0:]] *)
Definition slice_from (n0 : nat) (a : ndarray) : ndarray :=
  match a with
  | RealArr l => RealArr (skipn n0 l)
  | CplxArr l => CplxArr (skipn n0 l)
  end.

(** [abs(a)] *)
Definition magnitudes (a : ndarray) : list R :=
  match a with
  | RealArr l => map Rabs l
  | CplxArr l => map Cabs l
  end.

(** [numpy.log10] of a positive number. *)
Definition log10 (v : R) : R := ln v / ln 10.

(** [maximum(20 * log10(v), bottom)] for a magnitude [v]: [log10(0)] is
    minus infinity, and the maximum is then the floor. *)
Definition dB_floor (bottom v : R) : R :=
  if Reqb v 0 then bottom else Rmax (20 * log10 v) bottom.

(** [np.maximum(20 * np.log10(abs(a)), bottom)] *)
Definition log_display (bottom : R) (a : ndarray) : ndarray :=
  RealArr (map (dB_floor bottom) (magnitudes a)).

(** Qt events, as far as [eventFilter] tells them apart. *)
Inductive qkey : Type := Key_Return | Key_Enter | Key_Escape | Key_other.

Inductive qevent : Type :=
| FocusIn
| KeyPress (key : qkey)
| FocusOut
| OtherEvent.

Section Display.

Local Open Scope string_scope.

Variable lfilter_zi : forall K : Type, Field K -> list K -> list K -> list K.

(** [pyfda_lib.safe_eval(expr, alt_expr, return_type='float')],
    [str(v)], [params['FMT'].format(v)] and [pyfda_lib.to_html] are not part
    of the module. *)
Variable safe_eval : string -> R -> R.
Variable py_str : R -> string.
Variable FMT_format : R -> string.
Variable to_html : string -> string.

Variable ui : PlotImpz_UI.
Variable fil : filter_dict.
Variable rng : np_random.
Variable env : settings.

(** [load_fs(self)] *)
Definition load_fs (w : window) : window :=
  match focus w with
  | Some ledFreq1 =>
      setText w ledFreq1 (py_str (f1 (engine w) * f_S fil))
  | Some ledFreq2 =>
      setText w ledFreq2 (py_str (f2 (engine w) * f_S fil))
  | _ =>
      let w := setText w ledFreq1 (FMT_format (f1 (engine w) * f_S fil)) in
      setText w ledFreq2 (FMT_format (f2 (engine w) * f_S fil))
  end.

(** [init_axes(self)]: the old axes are taken off the figure, and two
    subplots are made for a complex response that is to be plotted, one
    subplot otherwise. *)
Definition init_axes (w : window) : window :=
  with_figure w
    {| two_axes := cmplx (engine w) && chkPltResp env;
       resp_stem := None; stim_stem := None; imag_stem := None;
       title := None; xlabel_r := None; xlabel_i := None;
       ylabel_r := None; ylabel_i := None |}.

(** The figure [draw_impz] is working on. *)
Definition on_figure (w : window) (f : canvas -> canvas) : window :=
  match figure w with
  | Some cv => with_figure w (f cv)
  | None => w
  end.

Definition put_resp (p : stem_plot) (cv : canvas) : canvas :=
  {| two_axes := two_axes cv; resp_stem := Some p; stim_stem := stim_stem cv;
     imag_stem := imag_stem cv; title := title cv; xlabel_r := xlabel_r cv;
     xlabel_i := xlabel_i cv; ylabel_r := ylabel_r cv;
     ylabel_i := ylabel_i cv |}.

Definition put_stim (p : stem_plot) (cv : canvas) : canvas :=
  {| two_axes := two_axes cv; resp_stem := resp_stem cv; stim_stem := Some p;
     imag_stem := imag_stem cv; title := title cv; xlabel_r := xlabel_r cv;
     xlabel_i := xlabel_i cv; ylabel_r := ylabel_r cv;
     ylabel_i := ylabel_i cv |}.

Definition put_title (v : string) (cv : canvas) : canvas :=
  {| two_axes := two_axes cv; resp_stem := resp_stem cv;
     stim_stem := stim_stem cv; imag_stem := imag_stem cv; title := Some v;
     xlabel_r := xlabel_r cv; xlabel_i := xlabel_i cv;
     ylabel_r := ylabel_r cv; ylabel_i := ylabel_i cv |}.

(** Lines 391-399: the imaginary part on the lower subplot. *)
Definition put_imag (p : stem_plot) (xl yl_r yl_i : string) (cv : canvas)
  : canvas :=
  {| two_axes := two_axes cv; resp_stem := resp_stem cv;
     stim_stem := stim_stem cv; imag_stem := Some p; title := title cv;
     xlabel_r := xlabel_r cv; xlabel_i := Some xl;
     ylabel_r := Some yl_r; ylabel_i := Some yl_i |}.

(** Lines 401-402: the labels of the only subplot. *)
Definition put_labels (xl yl_r : string) (cv : canvas) : canvas :=
  {| two_axes := two_axes cv; resp_stem := resp_stem cv;
     stim_stem := stim_stem cv; imag_stem := imag_stem cv; title := title cv;
     xlabel_r := Some xl; xlabel_i := xlabel_i cv;
     ylabel_r := Some yl_r; ylabel_i := ylabel_i cv |}.

(** Lines 369-402: the stems, the title and the axis labels, for the
    ordinates [yv] and [yiv] left by lines 355-366; [yiv] is None when the
    local variable holds None or was never bound. *)
Definition plot_stems (mkfmt_r mkfmt_i Hs Hi : string) (yv : ndarray)
           (yiv : option ndarray) (w : window) : result :=
  let s := engine w in
  let n0 := N_start ui in
  let w := if chkPltResp env
           then on_figure w
                  (put_resp {| stem_t := skipn n0 (t s);
                               stem_y := slice_from n0 yv;
                               stem_bottom := bottom w;
                               stem_marker := Some mkfmt_r;
                               stem_label := "$y[n]$" |})
           else w in
  let w := if chkPltStim env
           then on_figure w
                  (put_stim {| stem_t := skipn n0 (t s);
                               stem_y := RealArr (skipn n0 (x s));
                               stem_bottom := bottom w;
                               stem_marker := None;
                               stem_label := "Stim." |})
           else w in
  let w := on_figure w (put_title (title_str s)) in
  if cmplx s && chkPltResp env then
    match yiv with
    | None => Fail TypeError w
    | Some yi =>
        Ok (on_figure w
              (put_imag {| stem_t := skipn n0 (t s);
                           stem_y := slice_from n0 yi;
                           stem_bottom := bottom w;
                           stem_marker := Some mkfmt_i;
                           stem_label := "$y_i[n]$" |}
                        (plt_tLabel env)
                        (Hs ++ "$\rightarrow $")
                        (Hi ++ "$\rightarrow $")))
    end
  else
    Ok (on_figure w (put_labels (plt_tLabel env) (Hs ++ "$\rightarrow $"))).

(** [draw_impz(self)] *)
Definition draw_impz (w : window) : result :=
  let w := setText w lblFreqUnit1 (to_html (freq_specs_unit env)) in
  let w := setText w lblFreqUnit2 (to_html (freq_specs_unit env)) in
  let w := load_fs w in
  let w := init_axes w in
  let s := engine w in
  let mkfmt_r := if chkMarker env then "o" else " " in
  let mkfmt_i := if chkMarker env then "d" else " " in
  let Hi := "$\Im\{$" ++ H_str s ++ "$\}$" in
  let Hs := if cmplx s then "$\Re\{$" ++ H_str s ++ "$\}$" else H_str s in
  if chkLog env then
    let w := setText w ledLogBottom (py_str (bottom w)) in
    let Hs := "$|$ " ++ Hs ++ "$|$ in dB" in
    let yv := log_display (bottom w) (y s) in
    if cmplx s then
      match y_i s with
      | None => Fail TypeError w
      | Some yi =>
          plot_stems mkfmt_r mkfmt_i Hs ("$\log$ " ++ Hi ++ " in dB")
            yv (Some (log_display (bottom w) yi)) w
      end
    else plot_stems mkfmt_r mkfmt_i Hs Hi yv None w
  else
    let w := with_bottom w 0 in
    plot_stems mkfmt_r mkfmt_i Hs Hi (y s) (y_i s) w.

(** [update_view(self)] *)
Definition update_view (w : window) : result := draw_impz w.

(** [draw(self)] *)
Definition draw (w : window) : result :=
  if toolbar_enabled env then
    match calc lfilter_zi ui fil rng (engine w) with
    | Done s => draw_impz (with_engine w s)
    | Reported e s => draw_impz (log_error (with_engine w s) (CalcError e))
    | Raised e s => Fail (FromCalc e) (with_engine w s)
    end
  else Ok w.

(** [enable_ui(self, enabled)] *)
Definition enable_ui (enabled : bool) (w : window) : result :=
  let w := with_frmControls w enabled in
  if enabled then draw w else Ok w.

(** A dictionary sent by a signal; of its values only the one under
    ['enabled'] is looked at. *)
Definition sig_dict : Type := list (string * bool).

(** [key in d] *)
Definition has_key (key : string) (d : sig_dict) : bool :=
  existsb (fun kv => (fst kv =? key)%string) d.

(** [d[key]] for a key of the dictionary *)
Definition lookup (key : string) (d : sig_dict) : bool :=
  match find (fun kv => (fst kv =? key)%string) d with
  | Some kv => snd kv
  | None => false
  end.

(** [process_signals(self, sig_dict)] *)
Definition process_signals (d : sig_dict) (w : window) : result :=
  if has_key "update_view" d || has_key "home" d then update_view w
  else if has_key "enabled" d then enable_ui (lookup "enabled" d) w
  else if has_key "draw" d then draw w
  else Ok (log_error w DictNotUnderstood).

(** [_store_entry(source)] inside [eventFilter] *)
Definition store_entry (source : widget) (w : window) : result :=
  match spec_edited w with
  | None => Fail AttributeError w
  | Some false => Ok w
  | Some true =>
      let s := engine w in
      let w :=
        if (objectName env source =? "stimFreq1")%string then
          let w := with_engine w
                     (with_f1 s (safe_eval (text w source) (f1 s * f_S fil)
                                 / f_S fil)) in
          setText w source (FMT_format (f1 (engine w) * f_S fil))
        else if (objectName env source =? "stimFreq2")%string then
          let w := with_engine w
                     (with_f2 s (safe_eval (text w source) (f2 s * f_S fil)
                                 / f_S fil)) in
          setText w source (FMT_format (f2 (engine w) * f_S fil))
        else w in
      let w := with_spec_edited w false in
      draw w
  end.

(** [eventFilter(self, source, event)], without the value handed back by
    the base class. *)
Definition eventFilter (source : widget) (event : qevent) (w : window)
  : result :=
  match event with
  | FocusIn =>
      let w := with_spec_edited w false in
      Ok (load_fs w)
  | KeyPress key =>
      let w := with_spec_edited w true in
      match key with
      | Key_Return | Key_Enter => store_entry source w
      | Key_Escape =>
          let w := with_spec_edited w false in
          let s := engine w in
          if (objectName env source =? "stimFreq1")%string then
            Ok (setText w source (FMT_format (f1 s * f_S fil)))
          else if (objectName env source =? "stimFreq2")%string then
            Ok (setText w source (FMT_format (f2 s * f_S fil)))
          else Ok w
      | Key_other => Ok w
      end
  | FocusOut => store_entry source w
  | OtherEvent => Ok w
  end.

(** What Qt does before it delivers an event: the focus may have moved and
    the user may have typed into the source. *)
Record delivery : Type := {
  source : widget;
  event : qevent;
  focus_now : option widget;
  typed : option string
}.

Definition deliver (d : delivery) (w : window) : result :=
  let w := with_focus w (focus_now d) in
  let w := match typed d with
           | Some v => setText w (source d) v
           | None => w
           end in
  eventFilter (source d) (event d) w.

(** A sequence of deliveries; an exception ends the handling of one event,
    not the event loop. *)
Fixpoint deliver_all (ds : list delivery) (w : window) : window :=
  match ds with
  | [] => w
  | d :: ds' => deliver_all ds' (window_of (deliver d w))
  end.

End Display.

(** Two windows differ at most in the texts of their widgets. *)
Definition same_but_texts (w w' : window) : Prop :=
  engine w' = engine w /\ spec_edited w' = spec_edited w /\
  focus w' = focus w /\ bottom w' = bottom w /\
  frmControls_enabled w' = frmControls_enabled w /\
  figure w' = figure w /\ logged w' = logged w.

(** The window [draw_impz] starts to plot on: the unit labels are written,
    the frequency fields reloaded and the axes made (lines 337-341). *)
Definition prepared (py_str FMT_format : R -> string)
           (to_html : string -> string) (fil : filter_dict) (env : settings)
           (w : window) : window :=
  init_axes env
    (load_fs py_str FMT_format fil
       (setText (setText w lblFreqUnit1 (to_html (freq_specs_unit env)))
          lblFreqUnit2 (to_html (freq_specs_unit env)))).

(** The event is a key press. *)
Definition is_key (e : qevent) : bool :=
  match e with
  | KeyPress _ => true
  | _ => false
  end.

(** From [w] to [w'] nothing was stored, computed, drawn or logged, and no
    edit is pending in [w']. *)
Definition quiet_step (w w' : window) : Prop :=
  engine w' = engine w /\ figure w' = figure w /\ logged w' = logged w /\
  bottom w' = bottom w /\ spec_edited w' <> Some true.

(** ** Sample windows *)

Module Screens.

Definition names (wd : widget) : string :=
  match wd with
  | ledFreq1 => "stimFreq1"
  | ledFreq2 => "stimFreq2"
  | lblFreqUnit1 => "lblFreqUnit1"
  | lblFreqUnit2 => "lblFreqUnit2"
  | ledLogBottom => "ledLogBottom"
  end.

Definition boxes (toolbar log resp stim : bool) : settings :=
  {| toolbar_enabled := toolbar; chkLog := log; chkMarker := true;
     chkPltResp := resp; chkPltStim := stim;
     freq_specs_unit := "f_S"; plt_tLabel := "n";
     objectName := names |}.

(** a window before any event, showing nothing yet *)
Definition start : window :=
  {| engine := Samples.earlier; spec_edited := None;
     text := fun _ => EmptyString; focus := None; bottom := -80;
     frmControls_enabled := true; figure := None; logged := [] |}.

Definition shown (v : R) : string := "v".

Definition html (u : string) : string := u.

(** an evaluation that falls back on the alternative *)
Definition fallback (expr : string) (alt : R) : R := alt.

End Screens.

(** * Properties *)

(** ** Vectors *)

Lemma map2_length {A B D : Type} (f : A -> B -> D) (u : list A) (v : list B) :
  length (map2 f u v) = Nat.min (length u) (length v).
Proof.
  revert v; induction u as [|a u IH]; intros [|b v]; simpl; auto.
Qed.

Lemma linspace_length (start stop : R) (num : nat) :
  length (linspace start stop num) = num.
Proof. unfold linspace. now rewrite length_map, length_seq. Qed.

Lemma randn_length (g : np_random) (k : nat) : length (randn g k) = k.
Proof. unfold randn. now rewrite length_map, length_seq. Qed.

Lemma rand_length (g : np_random) (k : nat) : length (rand g k) = k.
Proof. unfold rand. now rewrite length_map, length_seq. Qed.

Lemma iadd_from_length (n0 : nat) (l v : list R) :
  length v = (length l - n0)%nat ->
  length (iadd_from n0 l v) = length l.
Proof.
  intros Hv. unfold iadd_from.
  rewrite length_app, length_firstn, map2_length, length_skipn. lia.
Qed.

(** The samples before [n0] are not touched by [x[n0:] += v]. *)
Lemma iadd_from_before (n0 : nat) (l v : list R) (n : nat) :
  (n < n0)%nat -> nth_error (iadd_from n0 l v) n = nth_error l n.
Proof.
  intros Hn. unfold iadd_from.
  destruct (Nat.le_gt_cases n0 (length l)) as [Hle | Hgt].
  - rewrite nth_error_app1 by (rewrite length_firstn; lia).
    now rewrite nth_error_firstn, (proj2 (Nat.ltb_lt n n0) Hn).
  - rewrite skipn_all2 by lia. simpl.
    rewrite app_nil_r, firstn_all2 by lia. reflexivity.
Qed.

(** The samples from [n0] on receive the matching entry of [v]. *)
Lemma iadd_from_after (n0 : nat) (l v : list R) (k : nat) :
  length v = (length l - n0)%nat -> (n0 + k < length l)%nat ->
  nth (n0 + k) (iadd_from n0 l v) 0 = nth (n0 + k) l 0 + nth k v 0.
Proof.
  intros Hv Hk. unfold iadd_from.
  rewrite app_nth2 by (rewrite length_firstn; lia).
  rewrite length_firstn.
  replace (n0 + k - Nat.min n0 (length l))%nat with k by lia.
  rewrite <- (firstn_skipn n0 l) at 2.
  rewrite app_nth2 by (rewrite length_firstn; lia).
  rewrite length_firstn.
  replace (n0 + k - Nat.min n0 (length l))%nat with k by lia.
  assert (Hlen : (k < length (skipn n0 l))%nat) by (rewrite length_skipn; lia).
  assert (Hlv : length v = length (skipn n0 l)) by (rewrite length_skipn; lia).
  clear Hv Hk. revert Hlen Hlv. generalize (skipn n0 l) as u. revert v.
  induction k as [|k IH]; intros [|b v] [|a u]; simpl; intros; try lia; auto.
  apply IH; lia.
Qed.

(** ** The filters keep the length of their input *)

Section DirectFormFacts.

Context {K : Type} `{Field K}.

Lemma df2t_run_length (b a xs z : list K) :
  length (df2t_run b a z xs) = length xs.
Proof.
  revert z; induction xs as [|x0 xs IH]; intros z; simpl; auto.
Qed.

Lemma lfilter_zi_run_length (b a zi xs : list K) :
  length (lfilter_zi_run b a zi xs) = length xs.
Proof. apply df2t_run_length. Qed.

Lemma lfilter_run_length (b a xs : list K) :
  length (lfilter_run b a xs) = length xs.
Proof. apply lfilter_zi_run_length. Qed.

Lemma filtfilt_run_length (zi b a xs : list K) :
  length (filtfilt_run zi b a xs) = length xs.
Proof.
  unfold filtfilt_run.
  now rewrite length_rev, lfilter_zi_run_length, length_rev,
    lfilter_zi_run_length.
Qed.

End DirectFormFacts.

Lemma as_cplx_length (a : ndarray) : length (as_cplx a) = alen a.
Proof. destruct a; simpl; auto using length_map. Qed.

Lemma promote_length f (b a xv : ndarray) :
  (forall K F lb la lx, length (f K F lb la lx) = length lx) ->
  alen (promote f b a xv) = alen xv.
Proof.
  intros Hf. unfold promote.
  destruct b, a, xv; simpl; rewrite Hf; auto using length_map.
Qed.

Lemma lfilter_length (b a xv : ndarray) :
  alen (lfilter b a xv) = alen xv.
Proof.
  apply promote_length. intros. apply lfilter_run_length.
Qed.

Lemma filtfilt_length zi (b a xv : ndarray) :
  alen (filtfilt zi b a xv) = alen xv.
Proof.
  apply promote_length. intros. apply filtfilt_run_length.
Qed.

Lemma sosfilt_length (sections : list biquad) (xv : ndarray) :
  alen (sosfilt sections xv) = alen xv.
Proof.
  revert xv; induction sections as [|s l IH]; intros xv; cbn [sosfilt]; auto.
  now rewrite IH, lfilter_length.
Qed.

Lemma broadcast_sub_scalar_length (yv : ndarray) (g0 : R) :
  alen (broadcast_sub yv [g0]) = alen yv.
Proof. destruct yv; simpl; now rewrite length_map. Qed.

Lemma real_part_length (a : ndarray) : length (real_part a) = alen a.
Proof. destruct a; simpl; auto using length_map. Qed.

Lemma imag_part_length (a : ndarray) : length (imag_part a) = alen a.
Proof. destruct a; simpl; auto using length_map. Qed.

Lemma real_if_close_length (a : ndarray) (tol : R) :
  alen (real_if_close a tol) = alen a.
Proof.
  destruct a as [l | l]; simpl; auto.
  destruct (forallb _ l); simpl; auto using length_map.
Qed.

(** ** The stages of [calc] *)

Lemma same_but_stimulus_refl (s : PlotImpz) : same_but_stimulus s s.
Proof. repeat split. Qed.

Lemma same_but_stimulus_with_x (s : PlotImpz) (v : list R) :
  same_but_stimulus s (with_x s v).
Proof. repeat split. Qed.

Section StageFacts.

Variable lfilter_zi : forall K : Type, Field K -> list K -> list K -> list K.
Variable ui : PlotImpz_UI.
Variable fil : filter_dict.
Variable rng : np_random.

Lemma time_axis_N (s : PlotImpz) :
  N (time_axis ui fil s) = (resolved_points ui fil + N_start ui)%nat.
Proof.
  unfold time_axis, resolved_points.
  destruct (N_points ui =? 0)%nat; reflexivity.
Qed.

Lemma time_axis_t (s : PlotImpz) :
  length (t (time_axis ui fil s)) = N (time_axis ui fil s).
Proof.
  unfold time_axis.
  destruct (N_points ui =? 0)%nat; simpl; apply linspace_length.
Qed.

Lemma time_axis_frame (s : PlotImpz) :
  x (time_axis ui fil s) = x s /\ same_response s (time_axis ui fil s).
Proof.
  unfold time_axis, same_response.
  destruct (N_points ui =? 0)%nat; simpl; auto.
Qed.

(** A total length of zero needs an empty numerator. *)
Lemma time_axis_N_zero (s : PlotImpz) :
  N (time_axis ui fil s) = 0%nat -> alen (fst (ba fil)) = 0%nat.
Proof.
  rewrite time_axis_N. unfold resolved_points, calc_n_points.
  destruct (N_points ui =? 0)%nat eqn:E.
  - destruct (ft fil =? "IIR")%string; lia.
  - apply Nat.eqb_neq in E. lia.
Qed.

Lemma stimulus_unknown (s : PlotImpz) :
  recognised (cmbStimulus ui) = false ->
  stimulus ui s = Reported (UnknownStimulus (cmbStimulus ui)) s.
Proof.
  unfold recognised, stimulus. simpl.
  repeat (destruct (cmbStimulus ui =? _)%string; simpl; try discriminate).
  reflexivity.
Qed.

Lemma stimulus_known (s : PlotImpz) :
  recognised (cmbStimulus ui) = true ->
  (cmbStimulus ui = "Pulse"%string -> N s <> 0%nat) ->
  exists s1, stimulus ui s = Done s1.
Proof.
  unfold recognised, stimulus. simpl. intros Hr Hp. revert Hr.
  destruct (cmbStimulus ui =? "Pulse")%string eqn:E.
  - apply String.eqb_eq in E. specialize (Hp E).
    simpl. destruct (N s); [congruence|]. simpl. eauto.
  - clear E. simpl.
    repeat (destruct (cmbStimulus ui =? _)%string; simpl; [eauto|]).
    discriminate.
Qed.

Lemma stimulus_done (s s1 : PlotImpz) :
  stimulus ui s = Done s1 ->
  recognised (cmbStimulus ui) = true /\
  same_but_stimulus s s1 /\
  (length (t s) = N s -> length (x s1) = N s).
Proof.
  unfold recognised, stimulus. simpl.
  destruct (cmbStimulus ui =? "Pulse")%string.
  { simpl. destruct (N s) eqn:En; simpl; [discriminate|].
    intros [= <-]. split; [reflexivity|]. split.
    - repeat split; simpl; auto.
    - intros _. simpl. now rewrite repeat_length. }
  repeat (destruct (cmbStimulus ui =? _)%string;
          [ intros [= <-]; simpl; split; [reflexivity|]; split;
            [ repeat split
            | intros Ht; rewrite length_map, ?repeat_length; auto ] | ]).
  simpl. discriminate.
Qed.

Lemma stimulus_reported (s s0 : PlotImpz) (e : error) :
  stimulus ui s = Reported e s0 ->
  e = UnknownStimulus (cmbStimulus ui) /\ s0 = s.
Proof.
  unfold stimulus.
  destruct (cmbStimulus ui =? "Pulse")%string.
  { simpl. destruct (repeat 0 (N s)); simpl; discriminate. }
  repeat (destruct (cmbStimulus ui =? _)%string; [discriminate|]).
  intros [= <- <-]. auto.
Qed.

Lemma add_noise_frame (s : PlotImpz) :
  same_but_stimulus s (add_noise ui rng s).
Proof.
  unfold add_noise.
  destruct (noise ui =? "gauss")%string;
    [apply same_but_stimulus_with_x|].
  destruct (noise ui =? "uniform")%string;
    [apply same_but_stimulus_with_x|].
  apply same_but_stimulus_refl.
Qed.

Lemma add_noise_length (s : PlotImpz) :
  length (x s) = N s ->
  length (x (add_noise ui rng s)) = N s.
Proof.
  intros Hx. unfold add_noise.
  destruct (noise ui =? "gauss")%string; simpl.
  { rewrite iadd_from_length; auto.
    rewrite length_map, randn_length. lia. }
  destruct (noise ui =? "uniform")%string; simpl; auto.
  rewrite iadd_from_length; auto.
  rewrite length_map, rand_length. lia.
Qed.

(** The test of line 279 succeeds whatever the widget shows. *)
Lemma add_dc_always (s : PlotImpz) :
  add_dc ui s = with_x s (map (fun v => v + DC ui) (x s)).
Proof. reflexivity. Qed.

Lemma add_dc_frame (s : PlotImpz) : same_but_stimulus s (add_dc ui s).
Proof. rewrite add_dc_always. apply same_but_stimulus_with_x. Qed.

Lemma add_dc_length (s : PlotImpz) :
  length (x (add_dc ui s)) = length (x s).
Proof. rewrite add_dc_always. simpl. apply length_map. Qed.

Lemma response_length (s : PlotImpz) :
  alen (response lfilter_zi fil s) = length (x s).
Proof.
  unfold response.
  destruct ((0 <? length (sos fil))%nat && negb (zpkA fil)).
  - now rewrite sosfilt_length.
  - destruct (zpkA fil).
    + now rewrite filtfilt_length.
    + now rewrite lfilter_length.
Qed.

Lemma settling_length (s : PlotImpz) (yv : ndarray) :
  alen (settling ui s yv) = alen yv.
Proof.
  unfold settling.
  destruct (cmbStimulus ui =? "StepErr")%string; auto.
  simpl. apply broadcast_sub_scalar_length.
Qed.

(** What a completed call went through. *)
Lemma calc_done (s s' : PlotImpz) :
  calc lfilter_zi ui fil rng s = Done s' ->
  exists s1 s2,
    stimulus ui (time_axis ui fil s) = Done s1 /\
    s2 = with_ba (add_dc ui (add_noise ui rng s1))
           (fst (ba fil)) (snd (ba fil)) /\
    (2 <= Nat.min (alen (snd (ba fil))) (alen (fst (ba fil))))%nat /\
    s' = store s2 (settling ui s2 (response lfilter_zi fil s2)).
Proof.
  unfold calc, bind.
  destruct (stimulus ui (time_axis ui fil s)) as [s1| |] eqn:E1;
    try discriminate.
  unfold coefficients. cbn [aa bb with_ba].
  destruct (Nat.min _ _ <? 2)%nat eqn:E2; try discriminate.
  intros [= <-]. apply Nat.ltb_ge in E2.
  exists s1. eexists. repeat split; auto.
Qed.

End StageFacts.

(** ** The number of points *)

Section PointCount.

Variable lfilter_zi : forall K : Type, Field K -> list K -> list K -> list K.
Variable ui : PlotImpz_UI.
Variable fil : filter_dict.
Variable rng : np_random.

Lemma store_grid (s : PlotImpz) (yv : ndarray) :
  N (store s yv) = N s /\ t (store s yv) = t s /\ x (store s yv) = x s.
Proof.
  unfold store. destruct (any _); simpl; auto.
Qed.

Lemma stimulus_final_grid (s : PlotImpz) :
  N (final (stimulus ui s)) = N s /\ t (final (stimulus ui s)) = t s.
Proof.
  unfold stimulus.
  destruct (cmbStimulus ui =? "Pulse")%string.
  { simpl. destruct (repeat 0 (N s)); simpl; auto. }
  repeat (destruct (cmbStimulus ui =? _)%string; [simpl; auto|]).
  simpl; auto.
Qed.

(** [self.N] and [self.t] are those of lines 220-227 however the call
    ends. *)
Lemma calc_final_grid (s : PlotImpz) :
  N (final (calc lfilter_zi ui fil rng s)) = N (time_axis ui fil s) /\
  t (final (calc lfilter_zi ui fil rng s)) = t (time_axis ui fil s).
Proof.
  unfold calc.
  pose proof (stimulus_final_grid (time_axis ui fil s)) as Hs.
  destruct (stimulus ui (time_axis ui fil s)) as [s1| |] eqn:E1;
    [|simpl in *; auto..].
  destruct (add_noise_frame ui rng s1) as (_&_&Hn1&Ht1&_).
  destruct (add_dc_frame ui (add_noise ui rng s1)) as (_&_&Hn2&Ht2&_).
  cbn [final] in Hs. destruct Hs as [HsN Hst].
  cbn [bind]. unfold coefficients.
  destruct (Nat.min _ _ <? 2)%nat; cbn [bind final].
  - split.
    + change (N (add_dc ui (add_noise ui rng s1)) = N (time_axis ui fil s)).
      congruence.
    + change (t (add_dc ui (add_noise ui rng s1)) = t (time_axis ui fil s)).
      congruence.
  - rewrite (proj1 (store_grid _ _)), (proj1 (proj2 (store_grid _ _))).
    split.
    + change (N (add_dc ui (add_noise ui rng s1)) = N (time_axis ui fil s)).
      congruence.
    + change (t (add_dc ui (add_noise ui rng s1)) = t (time_axis ui fil s)).
      congruence.
Qed.

End PointCount.

(** C4.  With a requested point count of 0 the count resolves to 100 for an
    IIR filter and to [min(len(b), 100)] for any other filter type, FIR in
    particular (37 taps give 37, 150 taps give 100); a non-zero request is
    used as it is; and the total length, [self.N] and the length of [self.t]
    left by [calc], is the resolved count plus [N_start]. *)
Theorem calc_point_count lfilter_zi ui fil rng s :
  (N_points ui = 0%nat -> ft fil = "IIR"%string ->
   resolved_points ui fil = 100%nat) /\
  (N_points ui = 0%nat -> ft fil <> "IIR"%string ->
   resolved_points ui fil = Nat.min (alen (fst (ba fil))) 100) /\
  (N_points ui = 0%nat -> ft fil = "FIR"%string ->
   alen (fst (ba fil)) = 37%nat -> resolved_points ui fil = 37%nat) /\
  (N_points ui = 0%nat -> ft fil = "FIR"%string ->
   alen (fst (ba fil)) = 150%nat -> resolved_points ui fil = 100%nat) /\
  (N_points ui <> 0%nat -> resolved_points ui fil = N_points ui) /\
  resolved_points ui fil = calc_n_points fil (N_points ui) /\
  N (final (calc lfilter_zi ui fil rng s))
  = (resolved_points ui fil + N_start ui)%nat /\
  length (t (final (calc lfilter_zi ui fil rng s)))
  = (resolved_points ui fil + N_start ui)%nat.
Proof.
  assert (Hfir : N_points ui = 0%nat -> ft fil <> "IIR"%string ->
                 resolved_points ui fil = Nat.min (alen (fst (ba fil))) 100).
  { intros H0 Hft. unfold resolved_points, calc_n_points.
    apply String.eqb_neq in Hft. rewrite H0, Hft. reflexivity. }
  destruct (calc_final_grid lfilter_zi ui fil rng s) as [HN Ht].
  repeat split.
  - intros H0 Hft. unfold resolved_points, calc_n_points.
    rewrite H0, Hft. reflexivity.
  - exact Hfir.
  - intros H0 Hft Hb. rewrite Hfir, Hb; auto. rewrite Hft. discriminate.
  - intros H0 Hft Hb. rewrite Hfir, Hb; auto. rewrite Hft. discriminate.
  - intros Hn. unfold resolved_points.
    apply Nat.eqb_neq in Hn. now rewrite Hn.
  - unfold resolved_points, calc_n_points.
    destruct (N_points ui =? 0)%nat; reflexivity.
  - rewrite HN. apply time_axis_N.
  - rewrite Ht, time_axis_t. apply time_axis_N.
Qed.

Lemma calc_point_count_witness :
  resolved_points (Samples.ui_of "Step" "None" 0)
    (Samples.fir (repeat 0 37) [1]) = 37%nat.
Proof.
  apply (proj1 (proj2 (proj2 (calc_point_count Samples.zi_rest
                                (Samples.ui_of "Step" "None" 0)
                                (Samples.fir (repeat 0 37) [1])
                                Samples.quiet Samples.earlier))));
    reflexivity.
Defined.

(** ** Noise *)

Lemma nth_map_seq (f : nat -> R) (K k : nat) (d : R) :
  (k < K)%nat -> nth k (map f (seq 0 K)) d = f k.
Proof.
  intros Hk.
  rewrite (nth_indep _ d (f 0%nat)) by (rewrite length_map, length_seq; lia).
  rewrite map_nth, seq_nth; auto.
Qed.

(** C9.  The noise stage leaves every sample before [N_start] as it is;
    from [N_start] on it adds [noi] times a normal sample ("gauss") or [noi]
    times a sample of [-0.5, 0.5] ("uniform"); with any other noise setting
    it changes nothing. *)
Theorem noise_spares_startup ui rng s :
  (forall n, (n < N_start ui)%nat ->
             nth_error (x (add_noise ui rng s)) n = nth_error (x s) n) /\
  (noise ui <> "gauss"%string -> noise ui <> "uniform"%string ->
   add_noise ui rng s = s) /\
  (length (x s) = N s ->
   forall k, (N_start ui + k < N s)%nat ->
     (noise ui = "gauss"%string ->
      nth (N_start ui + k) (x (add_noise ui rng s)) 0
      = nth (N_start ui + k) (x s) 0 + noi ui * normal_stream rng k) /\
     (noise ui = "uniform"%string ->
      exists u, - (1 / 2) <= u <= 1 / 2 /\
        nth (N_start ui + k) (x (add_noise ui rng s)) 0
        = nth (N_start ui + k) (x s) 0 + noi ui * u)).
Proof.
  split; [|split].
  - intros n Hn. unfold add_noise.
    destruct (noise ui =? "gauss")%string;
      [simpl; now apply iadd_from_before|].
    destruct (noise ui =? "uniform")%string;
      [simpl; now apply iadd_from_before|].
    reflexivity.
  - intros Hg Hu. unfold add_noise.
    apply String.eqb_neq in Hg, Hu. now rewrite Hg, Hu.
  - intros Hx k Hk. split; intros Hn; unfold add_noise; rewrite Hn; simpl.
    + rewrite iadd_from_after.
      * f_equal. unfold randn. rewrite map_map.
        apply nth_map_seq. lia.
      * rewrite length_map, randn_length. lia.
      * lia.
    + exists (u_val (uniform_stream rng k) - 1 / 2). split.
      * pose proof (u_range (uniform_stream rng k)). lra.
      * rewrite iadd_from_after.
        -- f_equal. unfold rand. rewrite map_map.
           rewrite (nth_map_seq
                      (fun i => noi ui * (u_val (uniform_stream rng i) - 1 / 2)));
             [reflexivity | lia].
        -- rewrite length_map, rand_length. lia.
        -- lia.
Qed.

Lemma noise_spares_startup_witness :
  nth (N_start (Samples.ui_of "Step" "gauss" 0) + 0)
      (x (add_noise (Samples.ui_of "Step" "gauss" 0) Samples.quiet
            Samples.earlier)) 0
  = nth 0 (x Samples.earlier) 0 + 1 * 0.
Proof.
  refine (proj1 (proj2 (proj2 (noise_spares_startup
                                 (Samples.ui_of "Step" "gauss" 0)
                                 Samples.quiet Samples.earlier))
                         eq_refl 0%nat _) eq_refl).
  simpl. lia.
Defined.

(** ** The DC offset *)

(** C6.  The widget holding the DC value is hidden, and [calc] still adds
    the DC value 1 to the step stimulus: the test of line 279 looks at the
    method [isVisible], not at what it returns. *)
Theorem dc_added_when_hidden :
  visible (ledDC (Samples.ui_of "Step" "None" 1)) = false /\
  x (add_dc (Samples.ui_of "Step" "None" 1) Samples.earlier) = [7 + 1] /\
  x (add_dc (Samples.ui_of "Step" "None" 1) Samples.earlier)
  <> x Samples.earlier /\
  exists s',
    calc Samples.zi_rest (Samples.ui_of "Step" "None" 1)
         (Samples.fir [1; 0] [1; 0]) Samples.quiet Samples.earlier = Done s' /\
    x s' = [1 * 1 + 1; 1 * 1 + 1].
Proof.
  split; [reflexivity|]. split; [reflexivity|]. split.
  - simpl. intros [= Heq]. lra.
  - eexists. split; reflexivity.
Qed.

(** ** The settling error *)

Lemma Cmul_one (p : C) : Cmul p (1, 0) = p.
Proof.
  destruct p as [pr pi]. unfold Cmul; simpl. f_equal; ring.
Qed.

Lemma Cadd_comm (p q : C) : Cadd p q = Cadd q p.
Proof. unfold Cadd. f_equal; ring. Qed.

(** At the point [z = 1] a polynomial is the sum of its coefficients. *)
Lemma polyval_rev_one (l : list C) : polyval (rev l) (1, 0) = Csum l.
Proof.
  unfold polyval. induction l as [|c l IH]; simpl; auto.
  rewrite fold_left_app. simpl. rewrite IH, Cmul_one. apply Cadd_comm.
Qed.

(** The response at frequency zero is [sum(b) / sum(a)]. *)
Lemma freqz_dc (b a : ndarray) :
  freqz b a [0] = [Cdiv (Csum (as_cplx b)) (Csum (as_cplx a))].
Proof.
  unfold freqz, Cexp_j. simpl map.
  rewrite Ropp_0, cos_0, sin_0, !polyval_rev_one. reflexivity.
Qed.

(** C7.  For the stimulus "StepErr" and denominator coefficients that do
    not sum to 0, so that the gain at frequency zero is a number, the
    magnitude of that gain of [(b, a)] is taken off the real part of every
    sample of the filter output, the imaginary parts and the dtype staying
    as they are; for every other stimulus the filter output is left as it
    is. *)
Theorem settling_subtracts_dc_gain ui s yv :
  (cmbStimulus ui = "StepErr"%string ->
   Csum (as_cplx (aa s)) <> RtoC 0 ->
   real_part (settling ui s yv)
   = map (fun v => v - dc_gain (bb s) (aa s)) (real_part yv) /\
   imag_part (settling ui s yv) = imag_part yv /\
   is_cplx (settling ui s yv) = is_cplx yv) /\
  (cmbStimulus ui <> "StepErr"%string -> settling ui s yv = yv).
Proof.
  split.
  - intros Hs _. unfold settling.
    rewrite (proj2 (String.eqb_eq _ _) Hs), freqz_dc. fold (dc_gain (bb s) (aa s)).
    destruct yv as [l | l]; simpl.
    + repeat split. now rewrite !map_map.
    + repeat split; rewrite !map_map; reflexivity.
  - intros Hs. unfold settling. apply String.eqb_neq in Hs.
    now rewrite Hs.
Qed.

Lemma settling_subtracts_dc_gain_witness :
  real_part (settling (Samples.ui_of "StepErr" "None" 0) Samples.earlier
               (RealArr [3]))
  = [3 - dc_gain (RealArr [1; 0]) (RealArr [1; 0])].
Proof.
  refine (proj1 (proj1 (settling_subtracts_dc_gain
                          (Samples.ui_of "StepErr" "None" 0) Samples.earlier
                          (RealArr [3])) eq_refl _)).
  unfold Csum, Cadd, RtoC, re, im. simpl. intros [= H _]. lra.
Defined.

(** ** Real and imaginary part of the response *)

Lemma Rltb_true (u v : R) : Rltb u v = true <-> u < v.
Proof. unfold Rltb. destruct (Rlt_dec u v); split; auto; discriminate. Qed.

Lemma Reqb_true (u v : R) : Reqb u v = true <-> u = v.
Proof. unfold Reqb. destruct (Req_dec_T u v); split; auto; discriminate. Qed.

Lemma eps_value : eps = / 4503599627370496.
Proof. unfold eps. f_equal. simpl. lra. Qed.

Lemma tolerance_positive : 0 < eps * 1000.
Proof. rewrite eps_value. lra. Qed.

Lemma any_all_false {A : Type} (l : list A) :
  any (map (fun _ => false) l) = false.
Proof. induction l; simpl; auto. Qed.

Lemma any_iscomplex (a : ndarray) :
  any (iscomplex a) = true <-> has_imaginary a.
Proof.
  unfold has_imaginary. destruct a as [l | l]; simpl.
  - rewrite any_all_false. split; [discriminate|].
    intros (v & Hin & Hv). apply in_map_iff in Hin as (? & <- & _).
    now elim Hv.
  - unfold any. rewrite existsb_exists. split.
    + intros (b & Hin & Hb). subst b.
      apply in_map_iff in Hin as (z & Hz & Hin).
      exists (im z). split; [now apply in_map|].
      intros H0. apply Reqb_true in H0. rewrite H0 in Hz. discriminate.
    + intros (v & Hin & Hv). apply in_map_iff in Hin as (z & <- & Hin).
      exists true. split; auto. apply in_map_iff. exists z. split; auto.
      destruct (Reqb (im z) 0) eqn:E; auto.
      apply Reqb_true in E. contradiction.
Qed.

(** All imaginary parts below [1000 * eps]: the array becomes float64. *)
Lemma real_if_close_snaps (a : ndarray) :
  (forall v, In v (imag_part a) -> Rabs v < 1000 * eps) ->
  real_if_close a 1000 = RealArr (real_part a).
Proof.
  intros Hsmall. destruct a as [l | l]; simpl; auto.
  replace (Rltb 1 1000) with true
    by (symmetry; apply Rltb_true; lra).
  replace (forallb _ l) with true; auto.
  symmetry. apply forallb_forall. intros z Hz. apply Rltb_true.
  rewrite Rmult_comm. apply Hsmall. simpl. now apply in_map.
Qed.

(** An array that still has an imaginary part was not changed. *)
Lemma real_if_close_keeps (a : ndarray) :
  has_imaginary (real_if_close a 1000) -> real_if_close a 1000 = a.
Proof.
  destruct a as [l | l]; simpl; auto.
  destruct (forallb _ l); auto.
  intros (v & Hin & Hv). simpl in Hin.
  apply in_map_iff in Hin as (? & <- & _). now elim Hv.
Qed.

Lemma store_cases (s : PlotImpz) (yv : ndarray) :
  let yc := real_if_close yv 1000 in
  (cmplx (store s yv) = true /\ has_imaginary yc /\
   y (store s yv) = RealArr (real_part yc) /\
   y_i (store s yv) = Some (RealArr (imag_part yc))) \/
  (cmplx (store s yv) = false /\ ~ has_imaginary yc /\
   y (store s yv) = yc /\ y_i (store s yv) = None).
Proof.
  intros yc. unfold store. fold yc.
  destruct (any (iscomplex yc)) eqn:E; [left | right]; simpl.
  - repeat split. now apply any_iscomplex.
  - repeat split. intros Hi. apply any_iscomplex in Hi. congruence.
Qed.

(** An array without imaginary part left by [real_if_close] is float64. *)
Lemma real_if_close_real (a : ndarray) :
  ~ has_imaginary (real_if_close a 1000) ->
  real_if_close a 1000 = RealArr (real_part a).
Proof.
  intros Hno. apply real_if_close_snaps.
  destruct a as [l | l]; simpl in *.
  - intros v Hin. apply in_map_iff in Hin as (? & <- & _).
    rewrite Rabs_R0, Rmult_comm. apply tolerance_positive.
  - replace (Rltb 1 1000) with true in Hno
      by (symmetry; apply Rltb_true; lra).
    destruct (forallb _ l) eqn:E.
    + rewrite forallb_forall in E. intros v Hin.
      apply in_map_iff in Hin as (z & <- & Hin).
      specialize (E z Hin). apply Rltb_true in E. lra.
    + exfalso. apply Hno.
      destruct (forallb_forall
                  (fun z => Rltb (Rabs (im z)) (eps * 1000)) l) as [_ Hall].
      assert (Hex : exists z, In z l /\ ~ Rabs (im z) < eps * 1000).
      { clear Hno Hall. induction l as [|z l IH]; simpl in E; [discriminate|].
        destruct (Rltb (Rabs (im z)) (eps * 1000)) eqn:Ez.
        - destruct (IH E) as (z' & Hin & Hz'). exists z'. simpl; auto.
        - exists z. split; [simpl; auto|].
          intros Hlt. apply Rltb_true in Hlt. congruence. }
      destruct Hex as (z & Hin & Hz). exists (im z). split.
      * simpl. now apply in_map.
      * intros H0. apply Hz. rewrite H0, Rabs_R0. apply tolerance_positive.
Qed.

Lemma real_if_close_large_sample :
  real_if_close large_sample 1000 = large_sample.
Proof.
  unfold large_sample, real_if_close.
  replace (Rltb 1 1000) with true by (symmetry; apply Rltb_true; lra).
  simpl forallb.
  replace (Rltb (Rabs 1) (eps * 1000)) with false; [reflexivity|].
  symmetry. destruct (Rltb (Rabs 1) (eps * 1000)) eqn:E; auto.
  apply Rltb_true in E. rewrite Rabs_R1, eps_value in E. lra.
Qed.

(** C5 as stated, with the threshold taken relative to the signal scale,
    does not hold: every imaginary part of [large_sample] is below
    [1000 * eps] times the scale of the signal, and the response is stored
    as complex all the same. *)
Lemma cleanup_threshold_not_relative :
  (forall v, In v (imag_part large_sample) ->
             Rabs v < 1000 * eps * signal_scale large_sample) /\
  cmplx (store Samples.earlier large_sample) = true /\
  y_i (store Samples.earlier large_sample) = Some (RealArr [1]).
Proof.
  split.
  - intros v [<- | []]. unfold im; simpl snd.
    rewrite Rabs_R1. unfold signal_scale, large_sample. simpl.
    set (A := 4503599627370496).
    assert (HA : A <= Cabs (A, 1)).
    { unfold Cabs; simpl. rewrite <- (sqrt_square A) at 1 by (unfold A; lra).
      apply sqrt_le_1_alt. lra. }
    pose proof (Rmax_l (Cabs (A, 1)) 0) as Hmax.
    assert (He : eps * A = 1) by (rewrite eps_value; unfold A; field).
    assert (Hp : 0 < eps) by (rewrite eps_value; lra).
    nra.
  - unfold store. rewrite real_if_close_large_sample.
    assert (Hc : any (iscomplex large_sample) = true).
    { apply any_iscomplex. exists 1. split; [simpl; auto | lra]. }
    rewrite Hc. split; reflexivity.
Qed.

(** C5, amended.  If every imaginary part of the filter output is below
    [1000 * eps] in absolute value, [cmplx] is false and [y_i] is None;
    [cmplx] is true exactly when some sample keeps a non-zero imaginary part
    after [real_if_close]; then [y] and [y_i] are the real and the imaginary
    parts of the filter output, and otherwise [y] is the real sequence and
    [y_i] is None. *)
Theorem cleanup_absolute_threshold s yv :
  ((forall v, In v (imag_part yv) -> Rabs v < 1000 * eps) ->
   cmplx (store s yv) = false /\ y_i (store s yv) = None) /\
  (cmplx (store s yv) = true <-> has_imaginary (real_if_close yv 1000)) /\
  (cmplx (store s yv) = true ->
   y (store s yv) = RealArr (real_part yv) /\
   y_i (store s yv) = Some (RealArr (imag_part yv))) /\
  (cmplx (store s yv) = false ->
   y (store s yv) = RealArr (real_part yv) /\ y_i (store s yv) = None).
Proof.
  destruct (store_cases s yv) as [(Hc & Hi & Hy & Hyi) | (Hc & Hi & Hy & Hyi)];
    rewrite Hc, Hy, Hyi.
  - assert (Hbig : ~ forall v, In v (imag_part yv) -> Rabs v < 1000 * eps).
    { intros Hsmall. rewrite (real_if_close_snaps _ Hsmall) in Hi.
      destruct Hi as (v & Hin & Hv). simpl in Hin.
      apply in_map_iff in Hin as (? & <- & _). now elim Hv. }
    pose proof (real_if_close_keeps _ Hi) as Hk. rewrite Hk in Hi |- *.
    split; [intros; contradiction|].
    split; [split; auto|].
    split; [auto | discriminate].
  - pose proof (real_if_close_real _ Hi) as Hk.
    split; [auto|].
    split; [split; [discriminate | intros; contradiction]|].
    split; [discriminate | rewrite Hk; auto].
Qed.

Lemma cleanup_absolute_threshold_witness :
  cmplx (store Samples.earlier (CplxArr [(1, 0)])) = false /\
  y_i (store Samples.earlier (CplxArr [(1, 0)])) = None.
Proof.
  apply (proj1 (cleanup_absolute_threshold Samples.earlier
                  (CplxArr [(1, 0)]))).
  intros v [<- | []]. unfold im; simpl snd. rewrite Rabs_R0, eps_value. lra.
Defined.

(** ** The filtering routine *)

(** C1.  A call that passes the coefficient test stores the post-processed
    output [yf] of one filtering routine applied to the stimulus [x]: the
    cascade of second-order sections when [sos] is not empty and the filter
    is not anti-causal; the forward-backward filter of [(b, a)] when the
    filter is anti-causal, whatever [sos] holds; the single-pass filter of
    [(b, a)] when [sos] is empty and the filter is not anti-causal. *)
Theorem filtering_mode_priority lfilter_zi ui fil rng s s' :
  calc lfilter_zi ui fil rng s = Done s' ->
  exists s2 yf,
    x s2 = x s' /\ bb s2 = fst (ba fil) /\ aa s2 = snd (ba fil) /\
    s' = store s2 (settling ui s2 yf) /\
    (sos fil <> [] -> zpkA fil = false ->
     yf = sosfilt (sos fil) (RealArr (x s'))) /\
    (zpkA fil = true ->
     yf = filtfilt lfilter_zi (fst (ba fil)) (snd (ba fil))
            (RealArr (x s'))) /\
    (sos fil = [] -> zpkA fil = false ->
     yf = lfilter (fst (ba fil)) (snd (ba fil)) (RealArr (x s'))).
Proof.
  intros Hdone.
  destruct (calc_done _ _ _ _ _ _ Hdone) as (s1 & s2 & _ & Hs2 & _ & Hs').
  exists s2, (response lfilter_zi fil s2).
  assert (Hx : x s2 = x s').
  { rewrite Hs'. symmetry. apply store_grid. }
  rewrite <- Hx. unfold response. subst s2. cbn [bb aa with_ba].
  repeat split; auto.
  - intros Hsos Hz. rewrite Hz.
    destruct (sos fil); [congruence | reflexivity].
  - intros Hz. rewrite Hz, andb_false_r. reflexivity.
  - intros Hsos Hz. rewrite Hsos, Hz. reflexivity.
Qed.

Lemma filtering_mode_priority_witness :
  exists s2 yf,
    store s2 (settling (Samples.ui_of "Step" "None" 0) s2 yf)
    = final (calc Samples.zi_rest (Samples.ui_of "Step" "None" 0)
               (Samples.fir [1; 0] [1; 0]) Samples.quiet Samples.earlier) /\
    yf = lfilter (RealArr [1; 0]) (RealArr [1; 0])
           (RealArr (x (final (calc Samples.zi_rest
                                 (Samples.ui_of "Step" "None" 0)
                                 (Samples.fir [1; 0] [1; 0]) Samples.quiet
                                 Samples.earlier)))).
Proof.
  destruct (filtering_mode_priority Samples.zi_rest
              (Samples.ui_of "Step" "None" 0) (Samples.fir [1; 0] [1; 0])
              Samples.quiet Samples.earlier _ eq_refl)
    as (s2 & yf & _ & _ & _ & Hs' & _ & _ & Hl).
  exists s2, yf. split; [symmetry; exact Hs' | exact (Hl eq_refl eq_refl)].
Defined.

(** ** Lengths *)

(** C8.  After a completed call [t], [x] and [y] all have [N] entries, [N]
    being the resolved point count plus [N_start]; [y_i] is an array exactly
    when [cmplx] is true, and then it has [N] entries too. *)
Theorem result_lengths lfilter_zi ui fil rng s s' :
  calc lfilter_zi ui fil rng s = Done s' ->
  N s' = (resolved_points ui fil + N_start ui)%nat /\
  length (t s') = N s' /\
  length (x s') = N s' /\
  alen (y s') = N s' /\
  (y_i s' <> None <-> cmplx s' = true) /\
  (forall yi, y_i s' = Some yi -> alen yi = N s').
Proof.
  intros Hdone.
  pose proof (calc_final_grid lfilter_zi ui fil rng s) as [HN Ht].
  rewrite Hdone in HN, Ht. cbn [final] in HN, Ht.
  destruct (calc_done _ _ _ _ _ _ Hdone) as (s1 & s2 & Hs1 & Hs2 & _ & Hs').
  destruct (stimulus_done _ _ _ Hs1) as (_ & _ & Hx1).
  specialize (Hx1 (time_axis_t ui fil s)).
  assert (HN1 : N s1 = N (time_axis ui fil s)).
  { destruct (stimulus_done _ _ _ Hs1) as (_ & (_&_&H&_) & _). exact H. }
  assert (Hx2 : length (x s2) = N s').
  { subst s2. cbn [x with_ba]. rewrite add_dc_length, add_noise_length.
    - congruence.
    - congruence. }
  assert (Hxs : x s' = x s2) by (rewrite Hs'; apply store_grid).
  assert (Hy : alen (settling ui s2 (response lfilter_zi fil s2)) = N s').
  { now rewrite settling_length, response_length. }
  split; [rewrite HN; apply time_axis_N|].
  split; [rewrite Ht, HN; apply time_axis_t|].
  split; [congruence|].
  rewrite <- (real_if_close_length _ 1000) in Hy.
  destruct (store_cases s2 (settling ui s2 (response lfilter_zi fil s2)))
    as [(Hc & _ & Hys & Hyi) | (Hc & _ & Hys & Hyi)];
    rewrite <- Hs' in Hc, Hys, Hyi; rewrite Hc, Hys, Hyi.
  - split; [simpl; now rewrite real_part_length|].
    split; [split; [auto | discriminate]|].
    intros yi [= <-]. simpl. now rewrite imag_part_length.
  - split; [exact Hy|].
    split; [split; [congruence | discriminate]|].
    discriminate.
Qed.

Lemma result_lengths_witness :
  length (x (final (calc Samples.zi_rest (Samples.ui_of "Step" "None" 0)
                      (Samples.fir [1; 0] [1; 0]) Samples.quiet
                      Samples.earlier)))
  = N (final (calc Samples.zi_rest (Samples.ui_of "Step" "None" 0)
                (Samples.fir [1; 0] [1; 0]) Samples.quiet Samples.earlier)).
Proof.
  exact (proj1 (proj2 (proj2 (result_lengths Samples.zi_rest
                                (Samples.ui_of "Step" "None" 0)
                                (Samples.fir [1; 0] [1; 0]) Samples.quiet
                                Samples.earlier _ eq_refl)))).
Defined.

(** ** Calls that stop early *)

Section EarlyReturn.

Variable lfilter_zi : forall K : Type, Field K -> list K -> list K -> list K.
Variable ui : PlotImpz_UI.
Variable fil : filter_dict.
Variable rng : np_random.

Lemma calc_after_stimulus (s s1 : PlotImpz) :
  stimulus ui (time_axis ui fil s) = Done s1 ->
  let s2 := with_ba (add_dc ui (add_noise ui rng s1))
              (fst (ba fil)) (snd (ba fil)) in
  (degenerate fil ->
   calc lfilter_zi ui fil rng s = Reported NoProperCoefficients s2) /\
  (~ degenerate fil ->
   calc lfilter_zi ui fil rng s
   = Done (store s2 (settling ui s2 (response lfilter_zi fil s2)))).
Proof.
  intros Hs1 s2. unfold calc, degenerate. rewrite Hs1. cbn [bind].
  unfold coefficients. fold s2. cbn [aa bb with_ba s2].
  destruct (Nat.min _ _ <? 2)%nat eqn:E.
  - apply Nat.ltb_lt in E. split; [reflexivity | intros; contradiction].
  - apply Nat.ltb_ge in E. split; [lia | reflexivity].
Qed.

(** A call does not run to its end exactly when the coefficients are too
    short or the stimulus is not one of the seven. *)
Lemma calc_fails_iff (s : PlotImpz) :
  (forall s', calc lfilter_zi ui fil rng s <> Done s') <->
  (degenerate fil \/ recognised (cmbStimulus ui) = false).
Proof.
  split.
  - intros Hfail.
    destruct (recognised (cmbStimulus ui)) eqn:Hr; [left | now right].
    destruct (Nat.lt_ge_cases
                (Nat.min (alen (snd (ba fil))) (alen (fst (ba fil)))) 2)
      as [Hd | Hd]; [exact Hd | exfalso].
    destruct (stimulus_known ui (time_axis ui fil s) Hr) as (s1 & Hs1).
    { intros _ HN. apply time_axis_N_zero in HN. lia. }
    destruct (calc_after_stimulus s s1 Hs1) as [_ Hok].
    eapply Hfail. apply Hok. unfold degenerate. lia.
  - intros Hcond s' Hdone.
    destruct (calc_done _ _ _ _ _ _ Hdone) as (s1 & s2 & Hs1 & _ & Hmin & _).
    destruct (stimulus_done _ _ _ Hs1) as (Hr & _).
    destruct Hcond as [Hd | Hu]; [unfold degenerate in Hd; lia | congruence].
Qed.

(** Unless the stimulus is "Pulse" with a total length of zero, a call
    logs an error and returns exactly under the same condition. *)
Lemma calc_reports_iff (s : PlotImpz) :
  ~ (cmbStimulus ui = "Pulse"%string /\
     (resolved_points ui fil + N_start ui = 0)%nat) ->
  (exists e s', calc lfilter_zi ui fil rng s = Reported e s') <->
  (degenerate fil \/ recognised (cmbStimulus ui) = false).
Proof.
  intros Hedge. split.
  - intros (e & s' & Hrep). apply (calc_fails_iff s). congruence.
  - intros Hcond.
    destruct (recognised (cmbStimulus ui)) eqn:Hr.
    + destruct Hcond as [Hd | ?]; [|discriminate].
      destruct (stimulus_known ui (time_axis ui fil s) Hr) as (s1 & Hs1).
      { intros Hp HN. apply Hedge. split; auto.
        now rewrite <- (time_axis_N ui fil s). }
      destruct (calc_after_stimulus s s1 Hs1) as [Hbad _].
      eauto.
    + unfold calc. rewrite (stimulus_unknown ui _ Hr). cbn [bind]. eauto.
Qed.

End EarlyReturn.

(** C3.  With an empty numerator, automatic point count, no start offset
    and the stimulus "Pulse", the coefficients are too short and the
    stimulus is one of the seven, and the call neither runs to its end nor
    logs an error: the assignment [self.x[0] = self.ui.A1] raises IndexError
    on the empty array. *)
Theorem pulse_on_empty_filter_raises :
  degenerate (Samples.fir [] [1]) /\
  recognised (cmbStimulus (Samples.ui_of "Pulse" "None" 0)) = true /\
  N (time_axis (Samples.ui_of "Pulse" "None" 0) (Samples.fir [] [1])
       Samples.earlier) = 0%nat /\
  calc Samples.zi_rest (Samples.ui_of "Pulse" "None" 0) (Samples.fir [] [1])
       Samples.quiet Samples.earlier
  = Raised IndexError
      (with_x (time_axis (Samples.ui_of "Pulse" "None" 0)
                 (Samples.fir [] [1]) Samples.earlier) []).
Proof.
  split; [unfold degenerate; simpl; lia|].
  repeat split.
Qed.

(** ** A failing call is not atomic *)

(** C10.  When the coefficient test fails, [x] already holds the new
    stimulus with its noise and DC offset, while [cmplx], [y] and [y_i] are
    those of the earlier call; and the test is reached, for too short
    coefficients, whenever the stimulus stage completes. *)
Theorem degenerate_filter_keeps_new_stimulus lfilter_zi ui fil rng s :
  (forall s',
     calc lfilter_zi ui fil rng s = Reported NoProperCoefficients s' ->
     degenerate fil /\
     exists s1,
       stimulus ui (time_axis ui fil s) = Done s1 /\
       x s' = map (fun v => v + DC ui) (x (add_noise ui rng s1)) /\
       length (x s') = N s' /\
       N s' = (resolved_points ui fil + N_start ui)%nat /\
       same_response s s') /\
  (degenerate fil ->
   recognised (cmbStimulus ui) = true ->
   (cmbStimulus ui = "Pulse"%string ->
    (resolved_points ui fil + N_start ui)%nat <> 0%nat) ->
   exists s', calc lfilter_zi ui fil rng s = Reported NoProperCoefficients s').
Proof.
  split.
  - intros s' Hrep.
    pose proof (calc_final_grid lfilter_zi ui fil rng s) as [HN _].
    rewrite Hrep in HN. cbn [final] in HN.
    unfold calc in Hrep.
    destruct (stimulus ui (time_axis ui fil s)) as [s1| |] eqn:Hs1;
      cbn [bind] in Hrep.
    + unfold coefficients in Hrep. cbn [aa bb with_ba] in Hrep.
      destruct (Nat.min _ _ <? 2)%nat eqn:E; [|discriminate].
      injection Hrep as <-. apply Nat.ltb_lt in E.
      split; [exact E|]. exists s1. split; [reflexivity|].
      destruct (stimulus_done _ _ _ Hs1) as (_ & Hf1 & Hx1).
      specialize (Hx1 (time_axis_t ui fil s)).
      destruct Hf1 as (_&_&HN1&_&_&_&Hr1).
      destruct (add_noise_frame ui rng s1) as (_&_&HN2&_&_&_&Hr2).
      split; [reflexivity|].
      split.
      { cbn [x with_ba N] in *. rewrite add_dc_length, add_noise_length;
          congruence. }
      split; [rewrite HN; apply time_axis_N|].
      destruct (time_axis_frame ui fil s) as [_ Hr0].
      unfold same_response in *. cbn [cmplx y y_i with_ba add_dc with_x].
      rewrite add_dc_always. cbn [cmplx y y_i with_x].
      destruct Hr0 as (?&?&?), Hr1 as (?&?&?), Hr2 as (?&?&?).
      repeat split; congruence.
    + destruct (stimulus_reported _ _ _ _ Hs1) as [-> _]. discriminate.
    + discriminate.
  - intros Hd Hr Hp.
    destruct (stimulus_known ui (time_axis ui fil s) Hr) as (s1 & Hs1).
    { intros HP. rewrite time_axis_N. auto. }
    destruct (calc_after_stimulus lfilter_zi ui fil rng s s1 Hs1) as [Hbad _].
    eauto.
Qed.

Lemma degenerate_filter_keeps_new_stimulus_witness :
  exists s',
    calc Samples.zi_rest (Samples.ui_of "Step" "None" 1) (Samples.fir [1] [1])
         Samples.quiet Samples.earlier = Reported NoProperCoefficients s' /\
    x s' = [1 * 1 + 1] /\ x Samples.earlier = [7] /\
    y s' = y Samples.earlier.
Proof.
  destruct (proj2 (degenerate_filter_keeps_new_stimulus Samples.zi_rest
                     (Samples.ui_of "Step" "None" 1) (Samples.fir [1] [1])
                     Samples.quiet Samples.earlier))
    as (s' & Hs').
  - unfold degenerate. simpl. lia.
  - reflexivity.
  - discriminate.
  - exists s'. injection Hs' as <-. repeat split.
Defined.

(** ** The identity filter *)

Lemma df2t_identity (xs : list R) (z0 : R) :
  z0 = 0 ->
  df2t_run [1 / 1; 0 / 1] [1 / 1; 0 / 1] [z0] xs = xs.
Proof.
  revert z0. induction xs as [|x0 xs IH]; intros z0 Hz; simpl; auto.
  unfold df2t_out, df2t_next. simpl. f_equal.
  - subst z0. field.
  - apply IH. subst z0. field.
Qed.

Lemma lfilter_identity (xs : list R) :
  lfilter (RealArr [1; 0]) (RealArr [1; 0]) (RealArr xs) = RealArr xs.
Proof.
  unfold lfilter, promote, lfilter_run, lfilter_zi_run. f_equal.
  apply df2t_identity. reflexivity.
Qed.

Lemma dc_gain_identity : dc_gain (RealArr [1; 0]) (RealArr [1; 0]) = 1.
Proof.
  unfold dc_gain, Cabs, Cdiv, Csum, Cadd, RtoC, re, im. simpl.
  match goal with
  | |- sqrt ?r = 1 => replace r with 1; [apply sqrt_1 | field; lra]
  end.
Qed.

Lemma store_real (s : PlotImpz) (l : list R) :
  store s (RealArr l) = with_response s false (RealArr l) None.
Proof.
  unfold store. simpl. now rewrite any_all_false.
Qed.

(** C2 as stated does not hold: with [b = [1]], [a = [1]] the call stops at
    the coefficient test and [y] is still that of the earlier call; and with
    the identity filter written with two coefficients the stimulus
    "StepErr" gives [y = x - 1]. *)
Lemma identity_filter_not_passed_through :
  (exists s',
     calc Samples.zi_rest (Samples.ui_of "Step" "None" 0)
          (Samples.fir [1] [1]) Samples.quiet Samples.earlier
     = Reported NoProperCoefficients s' /\
     x s' = [1 * 1 + 0] /\ y s' = RealArr [7]) /\
  (exists s',
     calc Samples.zi_rest (Samples.ui_of "StepErr" "None" 0)
          (Samples.fir [1; 0] [1; 0]) Samples.quiet Samples.earlier
     = Done s' /\
     y s' <> RealArr (x s')).
Proof.
  split.
  - eexists. repeat split.
  - eexists. split; [reflexivity|].
    cbn [calc bind].
    set (s2 := with_ba _ _ _).
    assert (Hx : x s2 = [1 * 1 + 0; 1 * 1 + 0]) by reflexivity.
    assert (Hr : response Samples.zi_rest (Samples.fir [1; 0] [1; 0]) s2
                 = RealArr (x s2)).
    { unfold response. simpl sos. simpl zpkA. cbn [length Nat.ltb Nat.leb andb].
      apply lfilter_identity. }
    rewrite Hr. unfold settling.
    change (cmbStimulus (Samples.ui_of "StepErr" "None" 0) =? "StepErr")%string
      with true. cbv iota.
    rewrite freqz_dc.
    change (map Cabs [Cdiv (Csum (as_cplx (bb s2))) (Csum (as_cplx (aa s2)))])
      with [dc_gain (RealArr [1; 0]) (RealArr [1; 0])].
    rewrite dc_gain_identity. cbn [broadcast_sub]. rewrite store_real.
    cbn [y x with_response]. rewrite Hx. simpl.
    intros [= H1 H2]. lra.
Qed.

(** A call that stops at the coefficient test has the response of the
    earlier call. *)
Lemma coefficient_report_frame ui fil rng s s1 :
  stimulus ui (time_axis ui fil s) = Done s1 ->
  same_response s
    (with_ba (add_dc ui (add_noise ui rng s1)) (fst (ba fil)) (snd (ba fil))).
Proof.
  intros Hs1.
  destruct (time_axis_frame ui fil s) as [_ (A1 & A2 & A3)].
  destruct (stimulus_done _ _ _ Hs1) as (_ & (_&_&_&_&_&_&B1&B2&B3) & _).
  destruct (add_noise_frame ui rng s1) as (_&_&_&_&_&_&C1&C2&C3).
  destruct (add_dc_frame ui (add_noise ui rng s1))
    as (_&_&_&_&_&_&D1&D2&D3).
  unfold same_response. cbn [cmplx y y_i with_ba].
  repeat split; congruence.
Qed.

(** C2, amended.  With [b = [1]], [a = [1]] every call logs an error and
    returns with the response of the earlier call, the error being that of
    the coefficient test whenever the stimulus is one of the seven.  With
    the identity filter written with two coefficients, [b = [1, 0]],
    [a = [1, 0]], no second-order sections and a causal filter, every call
    with one of the seven stimuli runs to its end with a real response:
    [y] equals [x], except for "StepErr", where [y] is [x - 1]. *)
Theorem identity_filter_response lfilter_zi ui fil rng s :
  (ba fil = (RealArr [1], RealArr [1]) ->
   exists e s',
     calc lfilter_zi ui fil rng s = Reported e s' /\
     same_response s s' /\
     (recognised (cmbStimulus ui) = true -> e = NoProperCoefficients)) /\
  (ba fil = (RealArr [1; 0], RealArr [1; 0]) ->
   sos fil = [] -> zpkA fil = false ->
   recognised (cmbStimulus ui) = true ->
   exists s',
     calc lfilter_zi ui fil rng s = Done s' /\
     cmplx s' = false /\ y_i s' = None /\
     (cmbStimulus ui <> "StepErr"%string -> y s' = RealArr (x s')) /\
     (cmbStimulus ui = "StepErr"%string ->
      y s' = RealArr (map (fun v => v - 1) (x s')))).
Proof.
  split.
  - intros Hba.
    destruct (recognised (cmbStimulus ui)) eqn:Hr.
    + destruct (stimulus_known ui (time_axis ui fil s) Hr) as (s1 & Hs1).
      { intros _ HN. apply time_axis_N_zero in HN.
        rewrite Hba in HN. discriminate. }
      destruct (calc_after_stimulus lfilter_zi ui fil rng s s1 Hs1)
        as [Hbad _].
      rewrite Hbad by (unfold degenerate; rewrite Hba; simpl; lia).
      eexists. eexists. split; [reflexivity|].
      split; [now apply coefficient_report_frame | reflexivity].
    + unfold calc. rewrite (stimulus_unknown ui _ Hr). cbn [bind].
      eexists. eexists. split; [reflexivity|].
      split; [apply time_axis_frame | discriminate].
  - intros Hba Hsos Hz Hr.
    destruct (stimulus_known ui (time_axis ui fil s) Hr) as (s1 & Hs1).
    { intros _ HN. apply time_axis_N_zero in HN.
      rewrite Hba in HN. discriminate. }
    destruct (calc_after_stimulus lfilter_zi ui fil rng s s1 Hs1) as [_ Hok].
    rewrite Hok by (unfold degenerate; rewrite Hba; simpl; lia).
    eexists. split; [reflexivity|].
    set (s2 := with_ba _ _ _).
    assert (Hresp : response lfilter_zi fil s2 = RealArr (x s2)).
    { unfold response. rewrite Hsos, Hz. cbn [length Nat.ltb Nat.leb andb].
      unfold s2. cbn [bb aa with_ba]. rewrite Hba. apply lfilter_identity. }
    rewrite Hresp.
    assert (Hset : settling ui s2 (RealArr (x s2))
                   = if (cmbStimulus ui =? "StepErr")%string
                     then RealArr (map (fun v => v - 1) (x s2))
                     else RealArr (x s2)).
    { unfold settling. destruct (cmbStimulus ui =? "StepErr")%string; auto.
      rewrite freqz_dc.
      change (map Cabs [Cdiv (Csum (as_cplx (bb s2))) (Csum (as_cplx (aa s2)))])
        with [dc_gain (bb s2) (aa s2)].
      unfold s2. cbn [bb aa with_ba]. rewrite Hba. cbn [fst snd].
      rewrite dc_gain_identity. reflexivity. }
    rewrite Hset.
    destruct (cmbStimulus ui =? "StepErr")%string eqn:E;
      rewrite store_real; cbn [cmplx y y_i x with_response];
      repeat split; auto.
    + intros Hne. apply String.eqb_eq in E. contradiction.
    + intros He. apply String.eqb_neq in E. contradiction.
Qed.

Lemma identity_filter_response_witness :
  exists s',
    calc Samples.zi_rest (Samples.ui_of "Step" "None" 0)
         (Samples.fir [1; 0] [1; 0]) Samples.quiet Samples.earlier = Done s' /\
    y s' = RealArr (x s').
Proof.
  destruct (proj2 (identity_filter_response Samples.zi_rest
                     (Samples.ui_of "Step" "None" 0)
                     (Samples.fir [1; 0] [1; 0]) Samples.quiet
                     Samples.earlier) eq_refl eq_refl eq_refl eq_refl)
    as (s' & Hdone & _ & _ & Hy & _).
  exists s'. split; [exact Hdone|]. apply Hy. discriminate.
Defined.

(** * Further properties of the engine *)

(** ** How a call ends *)

(** X1.  With a stimulus [calc] has no branch for, the call logs the unknown
    stimulus and returns; [N] and [t] are already those of the new request,
    while [x], the labels, the coefficients and the response are still those
    of the earlier call. *)
Theorem unknown_stimulus_keeps_old_data lfilter_zi ui fil rng s :
  recognised (cmbStimulus ui) = false ->
  exists s',
    calc lfilter_zi ui fil rng s
    = Reported (UnknownStimulus (cmbStimulus ui)) s' /\
    N s' = (resolved_points ui fil + N_start ui)%nat /\
    length (t s') = N s' /\
    x s' = x s /\ title_str s' = title_str s /\ H_str s' = H_str s /\
    bb s' = bb s /\ aa s' = aa s /\ same_response s s'.
Proof.
  intros Hr. exists (time_axis ui fil s). unfold calc.
  rewrite (stimulus_unknown ui _ Hr). cbn [bind].
  split; [reflexivity|].
  split; [apply time_axis_N|].
  split; [apply time_axis_t|].
  unfold time_axis, same_response.
  destruct (N_points ui =? 0)%nat; simpl; repeat split.
Qed.

Lemma unknown_stimulus_keeps_old_data_witness :
  exists s',
    calc Samples.zi_rest (Samples.ui_of "Triangle" "None" 0)
         (Samples.fir [1; 0; 0] [1; 0; 0]) Samples.quiet Samples.earlier
    = Reported (UnknownStimulus "Triangle") s' /\
    length (t s') = 3%nat /\ x s' = [7].
Proof.
  destruct (unknown_stimulus_keeps_old_data Samples.zi_rest
              (Samples.ui_of "Triangle" "None" 0)
              (Samples.fir [1; 0; 0] [1; 0; 0]) Samples.quiet
              Samples.earlier eq_refl)
    as (s' & Hcalc & HN & Ht & Hx & _).
  exists s'. split; [exact Hcalc|]. split; [|exact Hx].
  rewrite Ht, HN. reflexivity.
Defined.

(** X2.  For a filter SciPy returns a result for, a call runs to its last
    line exactly when both coefficient vectors have at least two entries and
    the stimulus is one of the seven. *)
Theorem call_completes_iff lfilter_zi ui fil rng s :
  scipy_accepts fil ->
  ((exists s', calc lfilter_zi ui fil rng s = Done s') <->
   (~ degenerate fil /\ recognised (cmbStimulus ui) = true)).
Proof.
  intros _. split.
  - intros (s' & Hdone).
    destruct (calc_done _ _ _ _ _ _ Hdone) as (s1 & _ & Hs1 & _ & Hmin & _).
    destruct (stimulus_done _ _ _ Hs1) as (Hr & _).
    split; [unfold degenerate; lia | exact Hr].
  - intros (Hd & Hr).
    destruct (stimulus_known ui (time_axis ui fil s) Hr) as (s1 & Hs1).
    { intros _ HN. apply time_axis_N_zero in HN.
      apply Hd. unfold degenerate. lia. }
    destruct (calc_after_stimulus lfilter_zi ui fil rng s s1 Hs1) as [_ Hok].
    eexists. apply Hok, Hd.
Qed.

(** X3.  For a filter SciPy returns a result for, an exception leaves
    [calc] exactly when the stimulus is "Pulse" and the total length is
    zero, that is with an automatic point count, a filter type other than
    "IIR", an empty numerator and no start offset; the exception is the
    IndexError of [self.x[0] = self.ui.A1]. *)
Theorem call_raises_iff lfilter_zi ui fil rng s :
  scipy_accepts fil ->
  ((exists e s', calc lfilter_zi ui fil rng s = Raised e s') <->
   (cmbStimulus ui = "Pulse"%string /\ N_points ui = 0%nat /\
    ft fil <> "IIR"%string /\ alen (fst (ba fil)) = 0%nat /\
    N_start ui = 0%nat)).
Proof.
  intros _.
  assert (Hzero : N (time_axis ui fil s) = 0%nat <->
                  (N_points ui = 0%nat /\ ft fil <> "IIR"%string /\
                   alen (fst (ba fil)) = 0%nat /\ N_start ui = 0%nat)).
  { rewrite time_axis_N. unfold resolved_points, calc_n_points.
    destruct (N_points ui =? 0)%nat eqn:E0.
    - apply Nat.eqb_eq in E0.
      destruct (ft fil =? "IIR")%string eqn:Eft.
      + apply String.eqb_eq in Eft. split; [lia | intros (_ & H & _); tauto].
      + apply String.eqb_neq in Eft. split.
        * intros H. repeat split; auto; lia.
        * intros (_ & _ & Hb & Hs). rewrite Hb, Hs. reflexivity.
    - apply Nat.eqb_neq in E0. split; [lia | intros (H & _); tauto]. }
  split.
  - intros (e & s' & Hr). unfold calc in Hr.
    destruct (stimulus ui (time_axis ui fil s)) as [s1| |e1 s1] eqn:Hs1;
      cbn [bind] in Hr.
    + unfold coefficients in Hr.
      destruct (Nat.min _ _ <? 2)%nat; discriminate.
    + discriminate.
    + clear Hr. unfold stimulus in Hs1.
      destruct (cmbStimulus ui =? "Pulse")%string eqn:Ep.
      * apply String.eqb_eq in Ep. split; [exact Ep|]. apply Hzero.
        cbn [x with_x] in Hs1.
        destruct (N (time_axis ui fil s)); [reflexivity|].
        simpl in Hs1. discriminate.
      * repeat (destruct (cmbStimulus ui =? _)%string; [discriminate|]).
        discriminate.
  - intros (Hp & Hrest). apply Hzero in Hrest. unfold calc, stimulus.
    rewrite Hp. cbn [String.eqb Ascii.eqb Bool.eqb x with_x].
    rewrite Hrest. cbn [repeat setitem0 bind]. eauto.
Qed.

Lemma scipy_accepts_two_taps (b : list R) :
  scipy_accepts (Samples.fir b [1; 0]).
Proof.
  unfold scipy_accepts, leading. simpl. split; [|discriminate].
  unfold RtoC. intros [= H]. lra.
Qed.

Lemma call_completes_iff_witness :
  exists s',
    calc Samples.zi_rest (Samples.ui_of "Step" "None" 0)
         (Samples.fir [1; 0] [1; 0]) Samples.quiet Samples.earlier = Done s'.
Proof.
  apply (call_completes_iff Samples.zi_rest (Samples.ui_of "Step" "None" 0)
           (Samples.fir [1; 0] [1; 0]) Samples.quiet Samples.earlier
           (scipy_accepts_two_taps [1; 0])).
  split; [unfold degenerate; simpl; lia | reflexivity].
Defined.

Lemma call_raises_iff_witness :
  exists e s',
    calc Samples.zi_rest (Samples.ui_of "Pulse" "None" 0)
         (Samples.fir [] [1; 0]) Samples.quiet Samples.earlier = Raised e s'.
Proof.
  apply (call_raises_iff Samples.zi_rest (Samples.ui_of "Pulse" "None" 0)
           (Samples.fir [] [1; 0]) Samples.quiet Samples.earlier
           (scipy_accepts_two_taps [])).
  repeat split. discriminate.
Defined.

(** X4.  With an automatic point count the resolved count is at most 100,
    so that at most [100 + N_start] samples are computed. *)
Theorem auto_count_bounded lfilter_zi ui fil rng s :
  N_points ui = 0%nat ->
  (N (final (calc lfilter_zi ui fil rng s)) <= 100 + N_start ui)%nat /\
  (N_start ui <= N (final (calc lfilter_zi ui fil rng s)))%nat.
Proof.
  intros H0.
  rewrite (proj1 (calc_final_grid lfilter_zi ui fil rng s)), time_axis_N.
  unfold resolved_points, calc_n_points. rewrite H0. simpl.
  destruct (ft fil =? "IIR")%string; lia.
Qed.

Lemma auto_count_bounded_witness :
  (N (final (calc Samples.zi_rest (Samples.ui_of "Step" "None" 0)
               (Samples.fir (repeat 0%R 150) [1%R; 0%R]) Samples.quiet
               Samples.earlier)) <= 100 + 0)%nat.
Proof.
  exact (proj1 (auto_count_bounded Samples.zi_rest
                  (Samples.ui_of "Step" "None" 0)
                  (Samples.fir (repeat 0%R 150) [1%R; 0%R]) Samples.quiet
                  Samples.earlier eq_refl)).
Defined.

(** ** The time axis and the stimulus *)

Lemma nth_map_in {A : Type} (f : A -> R) (l : list A) (n : nat) (d : R)
      (d' : A) :
  (n < length l)%nat -> nth n (map f l) d = f (nth n l d').
Proof.
  intros Hn. rewrite (nth_indep _ d (f d')) by (rewrite length_map; lia).
  apply map_nth.
Qed.

Lemma linspace_nth (stop : R) (num n : nat) :
  (n < num)%nat -> nth n (linspace 0 stop num) 0 = INR n * (stop / INR num).
Proof.
  intros Hn. unfold linspace.
  rewrite (nth_map_seq (fun k => 0 + INR k * ((stop - 0) / INR num)))
    by exact Hn.
  unfold Rdiv. ring.
Qed.

Lemma time_axis_nth ui fil s (n : nat) :
  (n < N (time_axis ui fil s))%nat ->
  nth n (t (time_axis ui fil s)) 0 = INR n / f_S fil.
Proof.
  intros Hn.
  assert (Ht : t (time_axis ui fil s)
               = linspace 0 (INR (N (time_axis ui fil s)) / f_S fil)
                   (N (time_axis ui fil s))).
  { unfold time_axis. destruct (N_points ui =? 0)%nat; reflexivity. }
  rewrite Ht, linspace_nth by exact Hn.
  assert (HN : INR (N (time_axis ui fil s)) <> 0).
  { apply not_0_INR. lia. }
  unfold Rdiv.
  replace (INR (N (time_axis ui fil s)) * / f_S fil
           * / INR (N (time_axis ui fil s)))
    with (/ f_S fil
          * (INR (N (time_axis ui fil s)) * / INR (N (time_axis ui fil s))))
    by ring.
  rewrite Rinv_r by exact HN. ring.
Qed.

(** X5.  The time axis is uniform: its [n]-th entry is [n / f_S], for every
    [n] below the total length, however the call ends. *)
Theorem time_axis_uniform lfilter_zi ui fil rng s (n : nat) :
  (n < N (final (calc lfilter_zi ui fil rng s)))%nat ->
  nth n (t (final (calc lfilter_zi ui fil rng s))) 0 = INR n / f_S fil.
Proof.
  destruct (calc_final_grid lfilter_zi ui fil rng s) as [-> ->].
  apply time_axis_nth.
Qed.

Lemma time_axis_uniform_witness :
  nth 1 (t (final (calc Samples.zi_rest (Samples.ui_of "Step" "None" 0)
                     (Samples.fir [1; 0] [1; 0]) Samples.quiet
                     Samples.earlier))) 0
  = INR 1 / 1.
Proof.
  apply (time_axis_uniform Samples.zi_rest (Samples.ui_of "Step" "None" 0)
           (Samples.fir [1; 0] [1; 0]) Samples.quiet Samples.earlier 1).
  simpl. lia.
Defined.

(** X6.  The stimulus before noise and DC offset, sample by sample: "Pulse"
    is [A1] at [n = 0] and 0 after it, "Step" and "StepErr" are [A1]
    throughout, and the periodic stimuli are the cosine, the sum of two
    sines, the sign of a sine and the sawtooth, each taken at the time
    [n / f_S]. *)
Theorem stimulus_table ui fil s s1 (n : nat) :
  stimulus ui (time_axis ui fil s) = Done s1 ->
  (n < N s1)%nat ->
  let tn := INR n / f_S fil in
  (cmbStimulus ui = "Pulse"%string ->
   nth n (x s1) 0 = if (n =? 0)%nat then A1 ui else 0) /\
  (cmbStimulus ui = "Step"%string \/ cmbStimulus ui = "StepErr"%string ->
   nth n (x s1) 0 = A1 ui * 1) /\
  (cmbStimulus ui = "Cos"%string ->
   nth n (x s1) 0 = A1 ui * cos (2 * PI * tn * f1 s)) /\
  (cmbStimulus ui = "Sine"%string ->
   nth n (x s1) 0 = A1 ui * sin (2 * PI * tn * f1 s + phi1 ui)
                    + A2 ui * sin (2 * PI * tn * f2 s + phi2 ui)) /\
  (cmbStimulus ui = "Rect"%string ->
   nth n (x s1) 0 = A1 ui * sign (sin (2 * PI * tn * f1 s))) /\
  (cmbStimulus ui = "Saw"%string ->
   nth n (x s1) 0 = A1 ui * sawtooth (tn * f1 s * 2 * PI)).
Proof.
  intros Hs1 Hn tn.
  destruct (stimulus_done _ _ _ Hs1) as (_ & (_&_&HN&_) & _).
  rewrite HN in Hn.
  pose proof (time_axis_nth ui fil s n Hn) as Htn. fold tn in Htn.
  pose proof (time_axis_t ui fil s) as Hlen.
  assert (Hf : f1 (time_axis ui fil s) = f1 s /\
               f2 (time_axis ui fil s) = f2 s).
  { unfold time_axis. destruct (N_points ui =? 0)%nat; auto. }
  destruct Hf as [Hf1 Hf2].
  clear HN. revert Hs1 Hn Htn Hlen Hf1 Hf2.
  generalize (time_axis ui fil s) as s0. intros s0 Hs1 Hn Htn Hlen Hf1 Hf2.
  unfold stimulus in Hs1.
  repeat split; intros Hk.
  - rewrite Hk in Hs1. cbn [String.eqb Ascii.eqb Bool.eqb x with_x] in Hs1.
    destruct (N s0) as [|m]; [lia|].
    cbn [repeat setitem0] in Hs1. injection Hs1 as <-. cbn [x with_labels with_x].
    destruct n as [|n]; [reflexivity|]. simpl.
    apply nth_repeat.
  - destruct Hk as [Hk | Hk]; rewrite Hk in Hs1;
      cbn [String.eqb Ascii.eqb Bool.eqb] in Hs1; injection Hs1 as <-;
      cbn [x with_labels with_x];
      rewrite (nth_map_in _ _ _ _ 1) by (rewrite repeat_length; lia);
      now rewrite nth_repeat.
  - rewrite Hk in Hs1. cbn [String.eqb Ascii.eqb Bool.eqb] in Hs1.
    injection Hs1 as <-. cbn [x with_labels with_x].
    rewrite (nth_map_in _ _ _ _ 0) by lia. now rewrite Htn, Hf1.
  - rewrite Hk in Hs1. cbn [String.eqb Ascii.eqb Bool.eqb] in Hs1.
    injection Hs1 as <-. cbn [x with_labels with_x].
    rewrite (nth_map_in _ _ _ _ 0) by lia. now rewrite Htn, Hf1, Hf2.
  - rewrite Hk in Hs1. cbn [String.eqb Ascii.eqb Bool.eqb] in Hs1.
    injection Hs1 as <-. cbn [x with_labels with_x].
    rewrite (nth_map_in _ _ _ _ 0) by lia. now rewrite Htn, Hf1.
  - rewrite Hk in Hs1. cbn [String.eqb Ascii.eqb Bool.eqb] in Hs1.
    injection Hs1 as <-. cbn [x with_labels with_x].
    rewrite (nth_map_in _ _ _ _ 0) by lia. now rewrite Htn, Hf1.
Qed.

Lemma stimulus_table_witness :
  nth 1 (x (final (stimulus (Samples.ui_of "Pulse" "None" 0)
                     (time_axis (Samples.ui_of "Pulse" "None" 0)
                        (Samples.fir [1; 0] [1; 0]) Samples.earlier)))) 0
  = 0.
Proof.
  refine (proj1 (stimulus_table (Samples.ui_of "Pulse" "None" 0)
                   (Samples.fir [1; 0] [1; 0]) Samples.earlier _ 1
                   eq_refl _) eq_refl).
  simpl. lia.
Defined.

Lemma sign_bound (r : R) : Rabs (sign r) <= 1.
Proof.
  unfold sign.
  destruct (Rltb 0 r); [|destruct (Rltb r 0)]; apply Rabs_le; lra.
Qed.

(** One period of the sawtooth rises from -1 to 1, the upper end left out. *)
Lemma sawtooth_range (v : R) : -1 <= sawtooth v < 1.
Proof.
  unfold sawtooth.
  pose proof PI_RGT_0 as Hpi.
  destruct (base_Int_part (v / (2 * PI))) as [Hlo Hhi].
  set (k := IZR (Int_part (v / (2 * PI)))) in *.
  assert (Hv : v = v / (2 * PI) * (2 * PI)) by (field; lra).
  assert (H0 : 0 <= (v - 2 * PI * k) / PI).
  { apply Rmult_le_pos; [|left; now apply Rinv_0_lt_compat].
    rewrite Hv at 1. nra. }
  assert (H2 : (v - 2 * PI * k) / PI < 2).
  { apply (Rmult_lt_reg_r PI); [exact Hpi|].
    unfold Rdiv. rewrite Rmult_assoc, Rinv_l by lra.
    rewrite Rmult_1_r. rewrite Hv at 1. nra. }
  lra.
Qed.

Lemma Rabs_scaled (a v : R) : Rabs v <= 1 -> Rabs (a * v) <= Rabs a.
Proof.
  intros Hv. rewrite Rabs_mult.
  pose proof (Rabs_pos a). nra.
Qed.

Lemma Rabs_unit_interval (v : R) : -1 <= v <= 1 -> Rabs v <= 1.
Proof. intros Hv. apply Rabs_le. lra. Qed.

(** X7.  Before noise and DC offset no sample of the stimulus exceeds
    [|A1| + |A2|] in magnitude, whatever the stimulus and the frequencies. *)
Theorem stimulus_bounded ui s s1 (v : R) :
  stimulus ui s = Done s1 ->
  In v (x s1) ->
  Rabs v <= Rabs (A1 ui) + Rabs (A2 ui).
Proof.
  intros Hs1 Hin.
  pose proof (Rabs_pos (A1 ui)) as Hp1.
  pose proof (Rabs_pos (A2 ui)) as Hp2.
  unfold stimulus in Hs1.
  destruct (cmbStimulus ui =? "Pulse")%string.
  { cbn [x with_x] in Hs1. destruct (N s) as [|m]; [discriminate|].
    cbn [repeat setitem0] in Hs1. injection Hs1 as <-.
    cbn [x with_labels with_x] in Hin. destruct Hin as [<- | Hin]; [lra|].
    apply repeat_spec in Hin. subst v. rewrite Rabs_R0. lra. }
  destruct (cmbStimulus ui =? "Step")%string.
  { injection Hs1 as <-. cbn [x with_labels with_x] in Hin.
    apply in_map_iff in Hin as (o & <- & Ho). apply repeat_spec in Ho.
    subst o. rewrite Rmult_1_r. lra. }
  destruct (cmbStimulus ui =? "StepErr")%string.
  { injection Hs1 as <-. cbn [x with_labels with_x] in Hin.
    apply in_map_iff in Hin as (o & <- & Ho). apply repeat_spec in Ho.
    subst o. rewrite Rmult_1_r. lra. }
  destruct (cmbStimulus ui =? "Cos")%string.
  { injection Hs1 as <-. cbn [x with_labels with_x] in Hin.
    apply in_map_iff in Hin as (tn & <- & _).
    pose proof (Rabs_scaled (A1 ui) _
                  (Rabs_unit_interval _ (COS_bound (2 * PI * tn * f1 s)))).
    lra. }
  destruct (cmbStimulus ui =? "Sine")%string.
  { injection Hs1 as <-. cbn [x with_labels with_x] in Hin.
    apply in_map_iff in Hin as (tn & <- & _).
    pose proof (Rabs_scaled (A1 ui) _
                  (Rabs_unit_interval _
                     (SIN_bound (2 * PI * tn * f1 s + phi1 ui)))).
    pose proof (Rabs_scaled (A2 ui) _
                  (Rabs_unit_interval _
                     (SIN_bound (2 * PI * tn * f2 s + phi2 ui)))).
    eapply Rle_trans; [apply Rabs_triang|]. lra. }
  destruct (cmbStimulus ui =? "Rect")%string.
  { injection Hs1 as <-. cbn [x with_labels with_x] in Hin.
    apply in_map_iff in Hin as (tn & <- & _).
    pose proof (Rabs_scaled (A1 ui) _
                  (sign_bound (sin (2 * PI * tn * f1 s)))).
    lra. }
  destruct (cmbStimulus ui =? "Saw")%string.
  { injection Hs1 as <-. cbn [x with_labels with_x] in Hin.
    apply in_map_iff in Hin as (tn & <- & _).
    assert (Hsaw : Rabs (sawtooth (tn * f1 s * 2 * PI)) <= 1).
    { apply Rabs_unit_interval.
      pose proof (sawtooth_range (tn * f1 s * 2 * PI)). lra. }
    pose proof (Rabs_scaled (A1 ui) _ Hsaw). lra. }
  discriminate.
Qed.

Lemma stimulus_bounded_witness :
  Rabs (1 * 1) <= Rabs 1 + Rabs 0.
Proof.
  apply (stimulus_bounded (Samples.ui_of "Step" "None" 0) Samples.earlier
           _ (1 * 1) eq_refl).
  simpl. auto.
Defined.

(** ** What a completed call leaves *)

(** X8.  The response is stored as float64 arrays: after a completed call
    [y] is a real array, and so is [y_i] when there is one. *)
Theorem response_is_float64 lfilter_zi ui fil rng s s' :
  calc lfilter_zi ui fil rng s = Done s' ->
  is_cplx (y s') = false /\
  (forall yi, y_i s' = Some yi -> is_cplx yi = false).
Proof.
  intros Hdone.
  destruct (calc_done _ _ _ _ _ _ Hdone) as (s1 & s2 & _ & _ & _ & Hs').
  destruct (store_cases s2 (settling ui s2 (response lfilter_zi fil s2)))
    as [(_ & _ & Hy & Hyi) | (_ & Hno & Hy & Hyi)];
    rewrite <- Hs' in Hy, Hyi; rewrite Hy, Hyi.
  - split; [reflexivity|]. intros yi [= <-]. reflexivity.
  - rewrite (real_if_close_real _ Hno). split; [reflexivity | discriminate].
Qed.

Lemma response_is_float64_witness :
  is_cplx (y (final (calc Samples.zi_rest (Samples.ui_of "Step" "None" 0)
                       (Samples.fir [1; 0] [1; 0]) Samples.quiet
                       Samples.earlier))) = false.
Proof.
  exact (proj1 (response_is_float64 Samples.zi_rest
                  (Samples.ui_of "Step" "None" 0)
                  (Samples.fir [1; 0] [1; 0]) Samples.quiet Samples.earlier
                  _ eq_refl)).
Defined.

(** X9.  A completed call overwrites everything an earlier call left: its
    result depends on the earlier attributes only through [f1] and [f2]. *)
Theorem completed_call_forgets_earlier lfilter_zi ui fil rng s s0 s' :
  f1 s0 = f1 s -> f2 s0 = f2 s ->
  calc lfilter_zi ui fil rng s = Done s' ->
  calc lfilter_zi ui fil rng s0 = Done s'.
Proof.
  intros Hf1 Hf2.
  destruct s as [a1 a2 n tt xx ti hs b a c yy yi].
  destruct s0 as [a1' a2' n' tt' xx' ti' hs' b' a' c' yy' yi'].
  simpl in Hf1, Hf2. subst a1' a2'.
  unfold calc, time_axis, stimulus.
  destruct (N_points ui =? 0)%nat;
    cbn [N t x f1 f2 with_N with_t with_x with_labels];
    destruct (cmbStimulus ui =? "Pulse")%string;
    try (destruct (repeat 0 _); cbn [setitem0]);
    repeat (destruct (cmbStimulus ui =? _)%string);
    cbn [bind]; try discriminate;
    unfold coefficients, add_dc, add_noise;
    cbn [truth isVisible];
    destruct (noise ui =? "gauss")%string;
    try destruct (noise ui =? "uniform")%string;
    cbn [N t x f1 f2 aa bb with_N with_t with_x with_labels with_ba];
    (destruct (Nat.min _ _ <? 2)%nat; [discriminate|]);
    intros [= <-]; reflexivity.
Qed.

Lemma completed_call_forgets_earlier_witness :
  calc Samples.zi_rest (Samples.ui_of "Step" "None" 0)
       (Samples.fir [1; 0] [1; 0]) Samples.quiet
       (with_response (with_x Samples.earlier []) true (CplxArr []) None)
  = Done (final (calc Samples.zi_rest (Samples.ui_of "Step" "None" 0)
                   (Samples.fir [1; 0] [1; 0]) Samples.quiet
                   Samples.earlier)).
Proof.
  apply (completed_call_forgets_earlier Samples.zi_rest
           (Samples.ui_of "Step" "None" 0) (Samples.fir [1; 0] [1; 0])
           Samples.quiet Samples.earlier); reflexivity.
Defined.

(** * The display *)

(** ** The logarithmic scale *)


Lemma dB_floor_ge (bottom v : R) : bottom <= dB_floor bottom v.
Proof.
  unfold dB_floor. destruct (Reqb v 0); [lra | apply Rmax_r].
Qed.




(** ** What [draw_impz] puts on the figure *)

Lemma slice_from_length (n0 : nat) (a : ndarray) :
  alen (slice_from n0 a) = (alen a - n0)%nat.
Proof. destruct a; simpl; apply length_skipn. Qed.

Lemma log_display_length (bottom : R) (a : ndarray) :
  alen (log_display bottom a) = alen a.
Proof.
  unfold log_display. destruct a; simpl; now rewrite !length_map.
Qed.

Lemma log_display_floor (bottom : R) (a : ndarray) (n0 : nat) (v : R) :
  In v (real_part (slice_from n0 (log_display bottom a))) -> bottom <= v.
Proof.
  unfold log_display. simpl. intros Hin.
  rewrite skipn_map in Hin.
  apply in_map_iff in Hin as (m & <- & _). apply dB_floor_ge.
Qed.

Section DisplayFacts.

Variable lfilter_zi : forall K : Type, Field K -> list K -> list K -> list K.
Variable safe_eval : string -> R -> R.
Variable py_str : R -> string.
Variable FMT_format : R -> string.
Variable to_html : string -> string.
Variable ui : PlotImpz_UI.
Variable fil : filter_dict.
Variable rng : np_random.
Variable env : settings.

Lemma load_fs_frame (w : window) :
  same_but_texts w (load_fs py_str FMT_format fil w).
Proof.
  unfold load_fs, same_but_texts.
  destruct (focus w) as [[| | | |]|] eqn:E; simpl; rewrite ?E; repeat split.
Qed.

Lemma prepared_frame (w : window) :
  let prep := prepared py_str FMT_format to_html fil env in
  engine (prep w) = engine w /\ spec_edited (prep w) = spec_edited w /\
  focus (prep w) = focus w /\ bottom (prep w) = bottom w /\
  frmControls_enabled (prep w) = frmControls_enabled w /\
  logged (prep w) = logged w /\
  exists cv, figure (prep w) = Some cv /\
             two_axes cv = cmplx (engine w) && chkPltResp env /\
             resp_stem cv = None /\ stim_stem cv = None /\
             imag_stem cv = None.
Proof.
  intros prep. unfold prep, prepared.
  destruct (load_fs_frame
              (setText (setText w lblFreqUnit1 (to_html (freq_specs_unit env)))
                 lblFreqUnit2 (to_html (freq_specs_unit env))))
    as (He & Hs & Hf & Hb & Hc & _ & Hl).
  unfold init_axes. cbn [engine spec_edited focus bottom frmControls_enabled
                           logged figure with_figure].
  rewrite He, Hs, Hf, Hb, Hc, Hl. cbn.
  repeat split. eexists. repeat split.
Qed.

(** The stems of lines 369-392, as functions of what is plotted. *)
Lemma plot_stems_figure (mr mi Hs Hi : string) (yv : ndarray)
      (yiv : option ndarray) (w : window) (cv0 : canvas) :
  figure w = Some cv0 ->
  resp_stem cv0 = None -> stim_stem cv0 = None -> imag_stem cv0 = None ->
  let r := plot_stems ui env mr mi Hs Hi yv yiv w in
  let n0 := N_start ui in
  let s := engine w in
  engine (window_of r) = s /\ bottom (window_of r) = bottom w /\
  spec_edited (window_of r) = spec_edited w /\
  logged (window_of r) = logged w /\
  frmControls_enabled (window_of r) = frmControls_enabled w /\
  ((exists w', r = Ok w') <->
   (cmplx s && chkPltResp env = true -> yiv <> None)) /\
  exists cv,
    figure (window_of r) = Some cv /\
    two_axes cv = two_axes cv0 /\
    resp_stem cv
    = (if chkPltResp env
       then Some {| stem_t := skipn n0 (t s); stem_y := slice_from n0 yv;
                    stem_bottom := bottom w; stem_marker := Some mr;
                    stem_label := "$y[n]$" |}
       else None) /\
    stim_stem cv
    = (if chkPltStim env
       then Some {| stem_t := skipn n0 (t s);
                    stem_y := RealArr (skipn n0 (x s));
                    stem_bottom := bottom w; stem_marker := None;
                    stem_label := "Stim." |}
       else None) /\
    imag_stem cv
    = (if cmplx s && chkPltResp env
       then option_map
              (fun yi => {| stem_t := skipn n0 (t s);
                            stem_y := slice_from n0 yi;
                            stem_bottom := bottom w; stem_marker := Some mi;
                            stem_label := "$y_i[n]$" |}) yiv
       else None).
Proof.
  intros Hfig Hr0 Hs0 Hi0 r n0 s. subst r n0 s.
  destruct w as [e se tx fo bo fc fg lg]. cbn in Hfig. subst fg.
  unfold plot_stems, on_figure. cbn [engine].
  destruct (chkPltResp env), (chkPltStim env), (cmplx e), yiv as [yi|];
    cbn; rewrite ?Hr0, ?Hs0, ?Hi0;
    (repeat split;
     [ try (intros _; discriminate); try (intros _ _; discriminate);
       try (intros _; eexists; reflexivity);
       try (intros [w' Hw']; discriminate);
       try (intros [w' Hw'] _; discriminate);
       try (intros H; exfalso; now apply H)
       .. | eexists; repeat split; cbn; rewrite ?Hr0, ?Hs0, ?Hi0; reflexivity ]).
Qed.

End DisplayFacts.

Section DrawFacts.

Variable lfilter_zi : forall K : Type, Field K -> list K -> list K -> list K.
Variable py_str : R -> string.
Variable FMT_format : R -> string.
Variable to_html : string -> string.
Variable ui : PlotImpz_UI.
Variable fil : filter_dict.
Variable rng : np_random.
Variable env : settings.

(** [draw_impz] touches neither the computed attributes nor the error log,
    and it always leaves a figure. *)
Lemma draw_impz_frame (w : window) :
  let r := draw_impz py_str FMT_format to_html ui fil env w in
  engine (window_of r) = engine w /\
  spec_edited (window_of r) = spec_edited w /\
  logged (window_of r) = logged w /\
  frmControls_enabled (window_of r) = frmControls_enabled w /\
  bottom (window_of r) = (if chkLog env then bottom w else 0) /\
  exists cv, figure (window_of r) = Some cv /\
             two_axes cv = cmplx (engine w) && chkPltResp env.
Proof.
  intros r. subst r. unfold draw_impz. cbv zeta.
  fold (prepared py_str FMT_format to_html fil env w).
  destruct (prepared_frame py_str FMT_format to_html fil env w)
    as (He & Hs & _ & Hb & Hc & Hl & cv0 & Hfig & H2 & Hr0 & Hs0 & Hi0).
  cbv zeta in He, Hs, Hb, Hc, Hl, Hfig.
  set (w1 := prepared py_str FMT_format to_html fil env w) in *.
  rewrite He.
  destruct (chkLog env).
  - set (w2 := setText w1 ledLogBottom (py_str (bottom w1))).
    assert (Hfig2 : figure w2 = Some cv0) by exact Hfig.
    destruct (cmplx (engine w)) eqn:Ec.
    + destruct (y_i (engine w)) as [yi|].
      * match goal with
        | |- context [plot_stems ui env ?a ?b ?c ?d ?e ?f w2] =>
            destruct (plot_stems_figure ui env a b c d e f w2 cv0
                        Hfig2 Hr0 Hs0 Hi0)
              as (E1 & E2 & E3 & E4 & E5 & _ & cv & F1 & F2 & _)
        end.
        rewrite E1, E2, E3, E4, E5. cbn.
        repeat split; auto. exists cv. split; [exact F1|].
        now rewrite F2, H2.
      * cbn. repeat split; auto. exists cv0. split; [exact Hfig | exact H2].
    + match goal with
      | |- context [plot_stems ui env ?a ?b ?c ?d ?e ?f w2] =>
          destruct (plot_stems_figure ui env a b c d e f w2 cv0
                      Hfig2 Hr0 Hs0 Hi0)
            as (E1 & E2 & E3 & E4 & E5 & _ & cv & F1 & F2 & _)
      end.
      rewrite E1, E2, E3, E4, E5. cbn.
      repeat split; auto. exists cv. split; [exact F1|].
      now rewrite F2, H2.
  - assert (Hfig2 : figure (with_bottom w1 0) = Some cv0) by exact Hfig.
    match goal with
    | |- context [plot_stems ui env ?a ?b ?c ?d ?e ?f (with_bottom w1 0)] =>
        destruct (plot_stems_figure ui env a b c d e f (with_bottom w1 0) cv0
                    Hfig2 Hr0 Hs0 Hi0)
          as (E1 & E2 & E3 & E4 & E5 & _ & cv & F1 & F2 & _)
    end.
    rewrite E1, E2, E3, E4, E5. cbn.
    repeat split; auto. exists cv. split; [exact F1|].
    now rewrite F2, H2.
Qed.

(** The stems of a drawing that came to its end. *)
Lemma draw_impz_stems (w w' : window) :
  draw_impz py_str FMT_format to_html ui fil env w = Ok w' ->
  let s := engine w in
  let n0 := N_start ui in
  let shown := fun a => if chkLog env then log_display (bottom w) a else a in
  let base := if chkLog env then bottom w else 0 in
  exists cv,
    figure w' = Some cv /\
    resp_stem cv
    = (if chkPltResp env
       then Some {| stem_t := skipn n0 (t s);
                    stem_y := slice_from n0 (shown (y s));
                    stem_bottom := base;
                    stem_marker := Some (if chkMarker env then "o" else " ")%string;
                    stem_label := "$y[n]$" |}
       else None) /\
    stim_stem cv
    = (if chkPltStim env
       then Some {| stem_t := skipn n0 (t s);
                    stem_y := RealArr (skipn n0 (x s));
                    stem_bottom := base; stem_marker := None;
                    stem_label := "Stim." |}
       else None) /\
    imag_stem cv
    = (if cmplx s && chkPltResp env
       then option_map
              (fun yi =>
                 {| stem_t := skipn n0 (t s);
                    stem_y := slice_from n0 (shown yi);
                    stem_bottom := base;
                    stem_marker := Some (if chkMarker env then "d" else " ")%string;
                    stem_label := "$y_i[n]$" |}) (y_i s)
       else None).
Proof.
  unfold draw_impz. cbv zeta.
  fold (prepared py_str FMT_format to_html fil env w).
  destruct (prepared_frame py_str FMT_format to_html fil env w)
    as (He & _ & _ & Hb & _ & _ & cv0 & Hfig & _ & Hr0 & Hs0 & Hi0).
  cbv zeta in He, Hb, Hfig.
  set (w1 := prepared py_str FMT_format to_html fil env w) in *.
  rewrite He.
  destruct (chkLog env).
  - set (w2 := setText w1 ledLogBottom (py_str (bottom w1))).
    assert (Hfig2 : figure w2 = Some cv0) by exact Hfig.
    assert (He2 : engine w2 = engine w) by exact He.
    assert (Hb2 : bottom w2 = bottom w) by exact Hb.
    destruct (cmplx (engine w)) eqn:Ec.
    + destruct (y_i (engine w)) as [yi|]; [|discriminate].
      intros Hok.
      match type of Hok with
      | plot_stems ui env ?a ?b ?c ?d ?e ?f w2 = _ =>
          destruct (plot_stems_figure ui env a b c d e f w2 cv0
                      Hfig2 Hr0 Hs0 Hi0)
            as (_ & _ & _ & _ & _ & _ & cv & F1 & _ & F3 & F4 & F5)
      end.
      rewrite Hok in F1. cbn [window_of] in F1.
      rewrite ?He2, ?Hb2, ?Hb in F3, F4, F5. rewrite ?Ec in F5.
      exists cv. repeat split; auto.
    + intros Hok.
      match type of Hok with
      | plot_stems ui env ?a ?b ?c ?d ?e ?f w2 = _ =>
          destruct (plot_stems_figure ui env a b c d e f w2 cv0
                      Hfig2 Hr0 Hs0 Hi0)
            as (_ & _ & _ & _ & _ & _ & cv & F1 & _ & F3 & F4 & F5)
      end.
      rewrite Hok in F1. cbn [window_of] in F1.
      rewrite ?He2, ?Hb2, ?Hb in F3, F4, F5. rewrite ?Ec in F5.
      exists cv. repeat split; auto.
  - assert (Hfig2 : figure (with_bottom w1 0) = Some cv0) by exact Hfig.
    assert (He2 : engine (with_bottom w1 0) = engine w) by exact He.
    intros Hok.
    match type of Hok with
    | plot_stems ui env ?a ?b ?c ?d ?e ?f (with_bottom w1 0) = _ =>
        destruct (plot_stems_figure ui env a b c d e f (with_bottom w1 0) cv0
                    Hfig2 Hr0 Hs0 Hi0)
          as (_ & _ & _ & _ & _ & _ & cv & F1 & _ & F3 & F4 & F5)
    end.
    rewrite Hok in F1. cbn [window_of] in F1.
    rewrite He2 in F3, F4, F5. cbn [bottom with_bottom] in F3, F4, F5.
    exists cv. repeat split; auto.
Qed.

(** A drawing comes to its end unless it needs an imaginary part that is
    None. *)
Lemma draw_impz_ok (w : window) :
  (cmplx (engine w) = true -> y_i (engine w) <> None) ->
  exists w', draw_impz py_str FMT_format to_html ui fil env w = Ok w'.
Proof.
  intros Hyi. unfold draw_impz. cbv zeta.
  fold (prepared py_str FMT_format to_html fil env w).
  destruct (prepared_frame py_str FMT_format to_html fil env w)
    as (He & _ & _ & _ & _ & _ & cv0 & Hfig & _ & Hr0 & Hs0 & Hi0).
  cbv zeta in He, Hfig.
  set (w1 := prepared py_str FMT_format to_html fil env w) in *.
  rewrite He.
  destruct (chkLog env).
  - set (w2 := setText w1 ledLogBottom (py_str (bottom w1))).
    assert (Hfig2 : figure w2 = Some cv0) by exact Hfig.
    destruct (cmplx (engine w)) eqn:Ec.
    + destruct (y_i (engine w)) as [yi|]; [|now elim Hyi].
      match goal with
      | |- context [plot_stems ui env ?a ?b ?c ?d ?e ?f w2] =>
          apply (plot_stems_figure ui env a b c d e f w2 cv0
                   Hfig2 Hr0 Hs0 Hi0)
      end.
      intros _. discriminate.
    + match goal with
      | |- context [plot_stems ui env ?a ?b ?c ?d ?e ?f w2] =>
          apply (plot_stems_figure ui env a b c d e f w2 cv0
                   Hfig2 Hr0 Hs0 Hi0)
      end.
      change (engine w2) with (engine w1). rewrite He, Ec. discriminate.
  - assert (Hfig2 : figure (with_bottom w1 0) = Some cv0) by exact Hfig.
    match goal with
    | |- context [plot_stems ui env ?a ?b ?c ?d ?e ?f (with_bottom w1 0)] =>
        apply (plot_stems_figure ui env a b c d e f (with_bottom w1 0) cv0
                 Hfig2 Hr0 Hs0 Hi0)
    end.
    change (engine (with_bottom w1 0)) with (engine w1). rewrite He.
    intros Hc. apply Hyi.
    destruct (cmplx (engine w)); [reflexivity | discriminate].
Qed.

End DrawFacts.

(** X11.  With the logarithmic scale a drawing that comes to its end keeps
    [self.ui.bottom], and the real and the imaginary stems both stand on
    that floor: their baseline is the floor, and no plotted sample lies
    below it. *)
Theorem log_plot_stands_on_floor py_str FMT_format to_html ui fil env w w' :
  chkLog env = true ->
  draw_impz py_str FMT_format to_html ui fil env w = Ok w' ->
  bottom w' = bottom w /\
  exists cv,
    figure w' = Some cv /\
    forall p, resp_stem cv = Some p \/ imag_stem cv = Some p ->
              stem_bottom p = bottom w /\
              is_cplx (stem_y p) = false /\
              forall v, In v (real_part (stem_y p)) -> bottom w <= v.
Proof.
  intros Hlog Hok.
  destruct (draw_impz_frame py_str FMT_format to_html ui fil env w)
    as (_ & _ & _ & _ & Hb & _).
  cbv zeta in Hb. rewrite Hok, Hlog in Hb. cbn [window_of] in Hb.
  split; [exact Hb|].
  destruct (draw_impz_stems py_str FMT_format to_html ui fil env w w' Hok)
    as (cv & Hfig & Hr & _ & Hi).
  cbv zeta in Hr, Hi. rewrite Hlog in Hr, Hi.
  exists cv. split; [exact Hfig|].
  intros p [Hp | Hp].
  - rewrite Hp in Hr. destruct (chkPltResp env); [|discriminate].
    injection Hr as ->. cbn [stem_bottom stem_y].
    split; [reflexivity|]. split; [destruct (y (engine w)); reflexivity|].
    apply log_display_floor.
  - rewrite Hp in Hi.
    destruct (cmplx (engine w) && chkPltResp env); [|discriminate].
    destruct (y_i (engine w)) as [yi|]; [|discriminate].
    injection Hi as ->. cbn [stem_bottom stem_y].
    split; [reflexivity|]. split; [destruct yi; reflexivity|].
    apply log_display_floor.
Qed.

Lemma log_plot_stands_on_floor_witness :
  bottom (window_of (draw_impz Screens.shown Screens.shown Screens.html
                       (Samples.ui_of "Step" "None" 0)
                       (Samples.fir [1; 0] [1; 0])
                       (Screens.boxes true true true true) Screens.start))
  = -80.
Proof.
  exact (proj1 (log_plot_stands_on_floor Screens.shown Screens.shown
                  Screens.html (Samples.ui_of "Step" "None" 0)
                  (Samples.fir [1; 0] [1; 0])
                  (Screens.boxes true true true true) Screens.start _
                  eq_refl eq_refl)).
Defined.

(** The call that stops at an unknown stimulus. *)
Lemma unknown_stimulus_reported lfilter_zi ui fil rng s :
  recognised (cmbStimulus ui) = false ->
  exists s',
    calc lfilter_zi ui fil rng s
    = Reported (UnknownStimulus (cmbStimulus ui)) s' /\
    N s' = (resolved_points ui fil + N_start ui)%nat /\
    length (t s') = N s' /\ x s' = x s /\ y s' = y s.
Proof.
  intros Hr. exists (time_axis ui fil s). unfold calc.
  rewrite (stimulus_unknown ui _ Hr). cbn [bind].
  split; [reflexivity|].
  split; [apply time_axis_N|].
  split; [apply time_axis_t|].
  unfold time_axis. destruct (N_points ui =? 0)%nat; simpl; auto.
Qed.

(** X12.  With the linear scale [draw_impz] sets [self.ui.bottom] to 0,
    whatever floor was configured and however the drawing ends, and plots
    the stored response as it is, from [N_start] on, from the baseline 0. *)
Theorem linear_plot_resets_floor py_str FMT_format to_html ui fil env w :
  chkLog env = false ->
  bottom (window_of (draw_impz py_str FMT_format to_html ui fil env w)) = 0 /\
  forall w',
    draw_impz py_str FMT_format to_html ui fil env w = Ok w' ->
    exists cv,
      figure w' = Some cv /\
      forall p, resp_stem cv = Some p ->
                stem_y p = slice_from (N_start ui) (y (engine w)) /\
                stem_t p = skipn (N_start ui) (t (engine w)) /\
                stem_bottom p = 0.
Proof.
  intros Hlin. split.
  - destruct (draw_impz_frame py_str FMT_format to_html ui fil env w)
      as (_ & _ & _ & _ & Hb & _).
    cbv zeta in Hb. now rewrite Hlin in Hb.
  - intros w' Hok.
    destruct (draw_impz_stems py_str FMT_format to_html ui fil env w w' Hok)
      as (cv & Hfig & Hr & _).
    cbv zeta in Hr. rewrite Hlin in Hr.
    exists cv. split; [exact Hfig|].
    intros p Hp. rewrite Hp in Hr.
    destruct (chkPltResp env); [|discriminate].
    injection Hr as ->. repeat split.
Qed.

Lemma linear_plot_resets_floor_witness :
  bottom Screens.start = -80 /\
  bottom (window_of (draw_impz Screens.shown Screens.shown Screens.html
                       (Samples.ui_of "Step" "None" 0)
                       (Samples.fir [1; 0] [1; 0])
                       (Screens.boxes true false true true) Screens.start))
  = 0.
Proof.
  split; [reflexivity|].
  exact (proj1 (linear_plot_resets_floor Screens.shown Screens.shown
                  Screens.html (Samples.ui_of "Step" "None" 0)
                  (Samples.fir [1; 0] [1; 0])
                  (Screens.boxes true false true true) Screens.start
                  eq_refl)).
Defined.

(** The lengths and the imaginary part a completed call leaves. *)
Lemma calc_done_shape lfilter_zi ui fil rng s s' :
  calc lfilter_zi ui fil rng s = Done s' ->
  N s' = (resolved_points ui fil + N_start ui)%nat /\
  length (t s') = N s' /\ length (x s') = N s' /\ alen (y s') = N s' /\
  (cmplx s' = true -> exists yi, y_i s' = Some yi /\ alen yi = N s') /\
  (cmplx s' = false -> y_i s' = None).
Proof.
  intros Hdone.
  pose proof (calc_final_grid lfilter_zi ui fil rng s) as [HN Ht].
  rewrite Hdone in HN, Ht. cbn [final] in HN, Ht.
  destruct (calc_done _ _ _ _ _ _ Hdone) as (s1 & s2 & Hs1 & Hs2 & _ & Hs').
  destruct (stimulus_done _ _ _ Hs1) as (_ & (_&_&HN1&_) & Hx1).
  specialize (Hx1 (time_axis_t ui fil s)).
  assert (Hx2 : length (x s2) = N s').
  { subst s2. cbn [x with_ba]. rewrite add_dc_length, add_noise_length;
      congruence. }
  assert (Hxs : x s' = x s2) by (rewrite Hs'; apply store_grid).
  assert (Hy : alen (settling ui s2 (response lfilter_zi fil s2)) = N s').
  { now rewrite settling_length, response_length. }
  split; [rewrite HN; apply time_axis_N|].
  split; [rewrite Ht, HN; apply time_axis_t|].
  split; [congruence|].
  rewrite <- (real_if_close_length _ 1000) in Hy.
  destruct (store_cases s2 (settling ui s2 (response lfilter_zi fil s2)))
    as [(Hc & _ & Hys & Hyi) | (Hc & _ & Hys & Hyi)];
    rewrite <- Hs' in Hc, Hys, Hyi; rewrite Hc, Hys, Hyi.
  - split; [simpl; now rewrite real_part_length|].
    split; [|discriminate].
    intros _. eexists. split; [reflexivity|].
    simpl. now rewrite imag_part_length.
  - split; [exact Hy|]. split; [discriminate | reflexivity].
Qed.

(** X13.  With the tool bar enabled, [draw] after a call that runs to its
    end never fails; it leaves two subplots exactly for a complex response
    that is to be plotted, the imaginary stem exactly then, the response
    and the stimulus stems exactly for their check boxes; and every stem
    has as many abscissae as ordinates, namely the resolved point count:
    the [N_start] leading samples are computed and not shown. *)
Theorem draw_plots_resolved_points
        lfilter_zi py_str FMT_format to_html ui fil rng env w s' :
  toolbar_enabled env = true ->
  calc lfilter_zi ui fil rng (engine w) = Done s' ->
  exists w' cv,
    draw lfilter_zi py_str FMT_format to_html ui fil rng env w = Ok w' /\
    engine w' = s' /\ figure w' = Some cv /\
    two_axes cv = cmplx s' && chkPltResp env /\
    (resp_stem cv <> None <-> chkPltResp env = true) /\
    (stim_stem cv <> None <-> chkPltStim env = true) /\
    (imag_stem cv <> None <-> cmplx s' = true /\ chkPltResp env = true) /\
    forall p,
      resp_stem cv = Some p \/ stim_stem cv = Some p \/ imag_stem cv = Some p ->
      length (stem_t p) = resolved_points ui fil /\
      alen (stem_y p) = resolved_points ui fil.
Proof.
  intros Htb Hdone. unfold draw. rewrite Htb, Hdone.
  destruct (calc_done_shape _ _ _ _ _ _ Hdone)
    as (HN & Ht & Hx & Hy & Hct & Hcf).
  destruct (draw_impz_ok py_str FMT_format to_html ui fil env
              (with_engine w s')) as (w' & Hok).
  { cbn [engine with_engine]. intros Hc.
    destruct (Hct Hc) as (yi & -> & _). discriminate. }
  destruct (draw_impz_frame py_str FMT_format to_html ui fil env
              (with_engine w s')) as (He & _ & _ & _ & _ & cv' & Hf' & H2).
  cbv zeta in He, Hf'. rewrite Hok in He, Hf'. cbn [window_of] in He, Hf'.
  destruct (draw_impz_stems py_str FMT_format to_html ui fil env _ w' Hok)
    as (cv & Hfig & Hr & Hs & Hi).
  cbv zeta in Hr, Hs, Hi. cbn [engine with_engine] in *.
  assert (cv' = cv) by congruence. subst cv'.
  exists w', cv. split; [exact Hok|]. split; [exact He|].
  split; [exact Hfig|]. split; [exact H2|].
  assert (Hlen : (N s' - N_start ui = resolved_points ui fil)%nat) by lia.
  assert (Hshown : forall a,
             alen (slice_from (N_start ui)
                     (if chkLog env
                      then log_display (bottom (with_engine w s')) a
                      else a))
             = (alen a - N_start ui)%nat).
  { intros a. rewrite slice_from_length.
    destruct (chkLog env); [now rewrite log_display_length | reflexivity]. }
  split; [|split; [|split]].
  - rewrite Hr. destruct (chkPltResp env); split; congruence.
  - rewrite Hs. destruct (chkPltStim env); split; congruence.
  - rewrite Hi. destruct (cmplx s') eqn:Ec.
    + destruct (Hct eq_refl) as (yi & -> & _).
      destruct (chkPltResp env); cbn; split;
        try congruence; try (intros [_ H]; congruence); auto; discriminate.
    + cbn. split; [congruence | intros [H _]; discriminate].
  - intros p [Hp | [Hp | Hp]].
    + rewrite Hp in Hr. destruct (chkPltResp env); [|discriminate].
      injection Hr as ->. cbn [stem_t stem_y].
      rewrite length_skipn, Hshown. lia.
    + rewrite Hp in Hs. destruct (chkPltStim env); [|discriminate].
      injection Hs as ->. cbn [stem_t stem_y alen].
      rewrite !length_skipn. lia.
    + rewrite Hp in Hi.
      destruct (cmplx s') eqn:Ec; [|discriminate].
      destruct (Hct eq_refl) as (yi & Hyi & Hlyi). rewrite Hyi in Hi.
      destruct (chkPltResp env); [|discriminate].
      cbn in Hi. injection Hi as ->. cbn [stem_t stem_y].
      rewrite length_skipn, Hshown. lia.
Qed.

Lemma draw_plots_resolved_points_witness :
  exists w' cv,
    draw Samples.zi_rest Screens.shown Screens.shown Screens.html
         (Samples.ui_of "Step" "None" 0) (Samples.fir [1; 0] [1; 0])
         Samples.quiet (Screens.boxes true false true true) Screens.start
    = Ok w' /\
    figure w' = Some cv /\ two_axes cv = false.
Proof.
  destruct (draw_plots_resolved_points Samples.zi_rest Screens.shown
              Screens.shown Screens.html (Samples.ui_of "Step" "None" 0)
              (Samples.fir [1; 0] [1; 0]) Samples.quiet
              (Screens.boxes true false true true) Screens.start _
              eq_refl eq_refl)
    as (w' & cv & Hok & _ & Hfig & H2 & _).
  exists w', cv. repeat split; auto.
Defined.

(** X14.  With the tool bar enabled, [draw] goes on to [draw_impz] after a
    call that stopped at an unknown stimulus: the error is logged, the
    figure is made anew, and the response of the earlier call is plotted
    against the new time axis, the abscissae counting the newly resolved
    points and the ordinates those of the earlier call. *)
Theorem draw_after_unknown_stimulus
        lfilter_zi py_str FMT_format to_html ui fil rng env w :
  toolbar_enabled env = true ->
  recognised (cmbStimulus ui) = false ->
  let r := draw lfilter_zi py_str FMT_format to_html ui fil rng env w in
  logged (window_of r)
  = CalcError (UnknownStimulus (cmbStimulus ui)) :: logged w /\
  y (engine (window_of r)) = y (engine w) /\
  x (engine (window_of r)) = x (engine w) /\
  figure (window_of r) <> None /\
  forall w' cv p,
    r = Ok w' -> figure w' = Some cv -> resp_stem cv = Some p ->
    length (stem_t p) = resolved_points ui fil /\
    alen (stem_y p) = (alen (y (engine w)) - N_start ui)%nat.
Proof.
  intros Htb Hr r. subst r. unfold draw. rewrite Htb.
  destruct (unknown_stimulus_reported lfilter_zi ui fil rng (engine w) Hr)
    as (s' & Hcalc & HN & Ht & Hx & Hy).
  rewrite Hcalc.
  set (w1 := log_error (with_engine w s')
               (CalcError (UnknownStimulus (cmbStimulus ui)))).
  destruct (draw_impz_frame py_str FMT_format to_html ui fil env w1)
    as (He & _ & Hl & _ & _ & cv' & Hf' & _).
  cbv zeta in He, Hl, Hf'.
  rewrite He, Hl. cbn [engine logged w1 log_error with_engine].
  split; [reflexivity|]. split; [exact Hy|]. split; [exact Hx|].
  split; [congruence|].
  intros w' cv p Hok Hfig Hp.
  destruct (draw_impz_stems py_str FMT_format to_html ui fil env w1 w' Hok)
    as (cv2 & Hfig2 & Hresp & _).
  cbv zeta in Hresp. cbn [engine w1 log_error with_engine] in Hresp.
  assert (cv2 = cv) by congruence. subst cv2.
  rewrite Hp in Hresp. destruct (chkPltResp env); [|discriminate].
  injection Hresp as ->. cbn [stem_t stem_y].
  rewrite length_skipn, slice_from_length, Ht, HN, Hy.
  split; [lia|].
  destruct (chkLog env); [now rewrite log_display_length | reflexivity].
Qed.

Lemma draw_after_unknown_stimulus_witness :
  logged (window_of
            (draw Samples.zi_rest Screens.shown Screens.shown Screens.html
               (Samples.ui_of "Triangle" "None" 0)
               (Samples.fir [1; 0; 0] [1; 0; 0]) Samples.quiet
               (Screens.boxes true false true true) Screens.start))
  = [CalcError (UnknownStimulus "Triangle")].
Proof.
  exact (proj1 (draw_after_unknown_stimulus Samples.zi_rest Screens.shown
                  Screens.shown Screens.html
                  (Samples.ui_of "Triangle" "None" 0)
                  (Samples.fir [1; 0; 0] [1; 0; 0]) Samples.quiet
                  (Screens.boxes true false true true) Screens.start
                  eq_refl eq_refl)).
Defined.

(** * Signals and events *)

Section ControlFacts.

Variable lfilter_zi : forall K : Type, Field K -> list K -> list K -> list K.
Variable safe_eval : string -> R -> R.
Variable py_str : R -> string.
Variable FMT_format : R -> string.
Variable to_html : string -> string.
Variable ui : PlotImpz_UI.
Variable fil : filter_dict.
Variable rng : np_random.
Variable env : settings.

(** [calc] never assigns [f1] or [f2]. *)
Lemma calc_final_freqs (s : PlotImpz) :
  f1 (final (calc lfilter_zi ui fil rng s)) = f1 s /\
  f2 (final (calc lfilter_zi ui fil rng s)) = f2 s.
Proof.
  assert (Ht : f1 (time_axis ui fil s) = f1 s /\
               f2 (time_axis ui fil s) = f2 s).
  { unfold time_axis. destruct (N_points ui =? 0)%nat; auto. }
  destruct Ht as [<- <-]. unfold calc.
  generalize (time_axis ui fil s) as s0. intros s0.
  destruct (stimulus ui s0) as [s1| |] eqn:Hs.
  - destruct (stimulus_done _ _ _ Hs) as (_ & (H1 & H2 & _) & _).
    destruct (add_noise_frame ui rng s1) as (G1 & G2 & _).
    destruct (add_dc_frame ui (add_noise ui rng s1)) as (K1 & K2 & _).
    cbn [bind]. unfold coefficients.
    destruct (Nat.min _ _ <? 2)%nat; cbn [bind final].
    + split.
      * change (f1 (add_dc ui (add_noise ui rng s1)) = f1 s0). congruence.
      * change (f2 (add_dc ui (add_noise ui rng s1)) = f2 s0). congruence.
    + unfold store. destruct (any _); split.
      * change (f1 (add_dc ui (add_noise ui rng s1)) = f1 s0). congruence.
      * change (f2 (add_dc ui (add_noise ui rng s1)) = f2 s0). congruence.
      * change (f1 (add_dc ui (add_noise ui rng s1)) = f1 s0). congruence.
      * change (f2 (add_dc ui (add_noise ui rng s1)) = f2 s0). congruence.
  - destruct (stimulus_reported _ _ _ _ Hs) as [_ ->]. split; reflexivity.
  - unfold stimulus in Hs.
    destruct (cmbStimulus ui =? "Pulse")%string.
    + cbn [x with_x] in Hs. destruct (repeat 0 (N s0)); cbn in Hs;
        [|discriminate]. injection Hs as _ <-. split; reflexivity.
    + repeat (destruct (cmbStimulus ui =? _)%string; [discriminate|]).
      discriminate.
Qed.

(** [draw] leaves the control frame, [spec_edited] and the two stored
    frequencies alone. *)
Lemma draw_frame (w : window) :
  let r := draw lfilter_zi py_str FMT_format to_html ui fil rng env w in
  frmControls_enabled (window_of r) = frmControls_enabled w /\
  spec_edited (window_of r) = spec_edited w /\
  f1 (engine (window_of r)) = f1 (engine w) /\
  f2 (engine (window_of r)) = f2 (engine w).
Proof.
  intros r. subst r. unfold draw.
  destruct (toolbar_enabled env); [|repeat split].
  destruct (calc_final_freqs (engine w)) as [H1 H2].
  destruct (calc lfilter_zi ui fil rng (engine w)) as [s|e s|e s];
    cbn [final] in H1, H2.
  - destruct (draw_impz_frame py_str FMT_format to_html ui fil env
                (with_engine w s)) as (He & Hs & _ & Hc & _).
    cbv zeta in He, Hs, Hc. rewrite He, Hs, Hc. repeat split; auto.
  - destruct (draw_impz_frame py_str FMT_format to_html ui fil env
                (log_error (with_engine w s) (CalcError e)))
      as (He & Hs & _ & Hc & _).
    cbv zeta in He, Hs, Hc. rewrite He, Hs, Hc. repeat split; auto.
  - repeat split; auto.
Qed.

(** With the tool bar disabled [draw] does nothing. *)
Lemma draw_disabled (w : window) :
  toolbar_enabled env = false ->
  draw lfilter_zi py_str FMT_format to_html ui fil rng env w = Ok w.
Proof. intros H. unfold draw. now rewrite H. Qed.

End ControlFacts.

(** X15.  A signal with the key 'update_view' or 'home' only redraws: the
    attributes computed by [calc], the error log, the control frame and
    [spec_edited] stay as they are, whatever other keys the dictionary
    holds and whether the tool bar is enabled or not. *)
Theorem view_signals_never_recompute
        lfilter_zi py_str FMT_format to_html ui fil rng env d w :
  has_key "update_view" d || has_key "home" d = true ->
  let r := process_signals lfilter_zi py_str FMT_format to_html ui fil rng
             env d w in
  engine (window_of r) = engine w /\
  logged (window_of r) = logged w /\
  frmControls_enabled (window_of r) = frmControls_enabled w /\
  spec_edited (window_of r) = spec_edited w /\
  figure (window_of r) <> None.
Proof.
  intros Hk r. subst r. unfold process_signals, update_view. rewrite Hk.
  destruct (draw_impz_frame py_str FMT_format to_html ui fil env w)
    as (He & Hs & Hl & Hc & _ & cv & Hf & _).
  cbv zeta in He, Hs, Hl, Hc, Hf. rewrite He, Hs, Hl, Hc, Hf.
  repeat split. discriminate.
Qed.

Lemma view_signals_never_recompute_witness :
  engine (window_of
            (process_signals Samples.zi_rest Screens.shown Screens.shown
               Screens.html (Samples.ui_of "Step" "None" 0)
               (Samples.fir [1; 0] [1; 0]) Samples.quiet
               (Screens.boxes true false true true)
               [("draw"%string, true); ("home"%string, true)]
               Screens.start))
  = Samples.earlier.
Proof.
  exact (proj1 (view_signals_never_recompute Samples.zi_rest Screens.shown
                  Screens.shown Screens.html (Samples.ui_of "Step" "None" 0)
                  (Samples.fir [1; 0] [1; 0]) Samples.quiet
                  (Screens.boxes true false true true)
                  [("draw"%string, true); ("home"%string, true)]
                  Screens.start eq_refl)).
Defined.

(** X16.  While the tool bar is disabled, a signal without the keys
    'update_view' and 'home' neither recomputes nor redraws: the method
    returns, and the computed attributes, the figure, the floor and every
    text are as before; only the control frame or the error log change. *)
Theorem disabled_toolbar_blocks_drawing
        lfilter_zi py_str FMT_format to_html ui fil rng env d w :
  toolbar_enabled env = false ->
  has_key "update_view" d || has_key "home" d = false ->
  exists w',
    process_signals lfilter_zi py_str FMT_format to_html ui fil rng env d w
    = Ok w' /\
    engine w' = engine w /\ figure w' = figure w /\ bottom w' = bottom w /\
    text w' = text w /\ spec_edited w' = spec_edited w /\
    (has_key "enabled" d = true ->
     frmControls_enabled w' = lookup "enabled" d /\ logged w' = logged w) /\
    (has_key "enabled" d = false -> has_key "draw" d = true -> w' = w) /\
    (has_key "enabled" d = false -> has_key "draw" d = false ->
     logged w' = DictNotUnderstood :: logged w).
Proof.
  intros Htb Hk. unfold process_signals. rewrite Hk.
  destruct (has_key "enabled" d).
  - unfold enable_ui. destruct (lookup "enabled" d).
    + rewrite draw_disabled by exact Htb.
      eexists. split; [reflexivity|]. repeat split; intros; discriminate.
    + eexists. split; [reflexivity|]. repeat split; intros; discriminate.
  - destruct (has_key "draw" d).
    + rewrite draw_disabled by exact Htb.
      eexists. split; [reflexivity|]. repeat split; intros; discriminate.
    + eexists. split; [reflexivity|]. repeat split; intros; discriminate.
Qed.

Lemma disabled_toolbar_blocks_drawing_witness :
  exists w',
    process_signals Samples.zi_rest Screens.shown Screens.shown Screens.html
      (Samples.ui_of "Step" "None" 0) (Samples.fir [1; 0] [1; 0])
      Samples.quiet (Screens.boxes false false true true)
      [("enabled"%string, true)] Screens.start = Ok w' /\
    figure w' = None.
Proof.
  destruct (disabled_toolbar_blocks_drawing Samples.zi_rest Screens.shown
              Screens.shown Screens.html (Samples.ui_of "Step" "None" 0)
              (Samples.fir [1; 0] [1; 0]) Samples.quiet
              (Screens.boxes false false true true)
              [("enabled"%string, true)] Screens.start eq_refl eq_refl)
    as (w' & Hok & _ & Hfig & _).
  exists w'. split; [exact Hok | exact Hfig].
Defined.

(** X17.  A signal with the key 'enabled', and without 'update_view' and
    'home', sets the control frame to the value under that key, also when
    'draw' is a key as well; with the value False nothing is recomputed or
    drawn. *)
Theorem enabled_signal_sets_controls
        lfilter_zi py_str FMT_format to_html ui fil rng env d w :
  has_key "update_view" d || has_key "home" d = false ->
  has_key "enabled" d = true ->
  let r := process_signals lfilter_zi py_str FMT_format to_html ui fil rng
             env d w in
  frmControls_enabled (window_of r) = lookup "enabled" d /\
  (lookup "enabled" d = false -> r = Ok (with_frmControls w false)).
Proof.
  intros Hk He r. subst r. unfold process_signals. rewrite Hk, He.
  unfold enable_ui. destruct (lookup "enabled" d) eqn:El.
  - split; [|discriminate].
    destruct (draw_frame lfilter_zi py_str FMT_format to_html ui fil rng env
                (with_frmControls w true)) as (Hc & _).
    cbv zeta in Hc. now rewrite Hc.
  - split; reflexivity.
Qed.

Lemma enabled_signal_sets_controls_witness :
  process_signals Samples.zi_rest Screens.shown Screens.shown Screens.html
    (Samples.ui_of "Step" "None" 0) (Samples.fir [1; 0] [1; 0])
    Samples.quiet (Screens.boxes true false true true)
    [("enabled"%string, false); ("draw"%string, true)] Screens.start
  = Ok (with_frmControls Screens.start false).
Proof.
  exact (proj2 (enabled_signal_sets_controls Samples.zi_rest Screens.shown
                  Screens.shown Screens.html (Samples.ui_of "Step" "None" 0)
                  (Samples.fir [1; 0] [1; 0]) Samples.quiet
                  (Screens.boxes true false true true)
                  [("enabled"%string, false); ("draw"%string, true)]
                  Screens.start eq_refl eq_refl) eq_refl).
Defined.

Section EventFacts.

Variable lfilter_zi : forall K : Type, Field K -> list K -> list K -> list K.
Variable safe_eval : string -> R -> R.
Variable py_str : R -> string.
Variable FMT_format : R -> string.
Variable to_html : string -> string.
Variable ui : PlotImpz_UI.
Variable fil : filter_dict.
Variable rng : np_random.
Variable env : settings.

(** What [_store_entry] leaves when the entry was edited. *)
Lemma store_entry_edited (source : widget) (w : window) :
  spec_edited w = Some true ->
  let r := store_entry lfilter_zi safe_eval py_str FMT_format to_html ui fil
             rng env source w in
  let e := engine w in
  let e' := engine (window_of r) in
  spec_edited (window_of r) = Some false /\
  (objectName env source = "stimFreq1"%string ->
   f1 e' = safe_eval (text w source) (f1 e * f_S fil) / f_S fil /\
   f2 e' = f2 e) /\
  (objectName env source = "stimFreq2"%string ->
   f2 e' = safe_eval (text w source) (f2 e * f_S fil) / f_S fil /\
   f1 e' = f1 e) /\
  (objectName env source <> "stimFreq1"%string ->
   objectName env source <> "stimFreq2"%string ->
   f1 e' = f1 e /\ f2 e' = f2 e).
Proof.
  intros Hse r e e'. subst r e e'. unfold store_entry. rewrite Hse.
  match goal with
  | |- context [draw _ _ _ _ _ _ _ _ ?w0] =>
      destruct (draw_frame lfilter_zi py_str FMT_format to_html ui fil rng
                  env w0) as (_ & Hs & H1 & H2)
  end.
  cbv zeta in Hs, H1, H2. rewrite Hs, H1, H2.
  cbn [spec_edited with_spec_edited engine].
  split; [reflexivity|].
  destruct (objectName env source =? "stimFreq1")%string eqn:E1.
  - apply String.eqb_eq in E1. cbn.
    split; [auto|]. split.
    + intros Hn. rewrite E1 in Hn. discriminate.
    + intros Hn. contradiction.
  - apply String.eqb_neq in E1.
    destruct (objectName env source =? "stimFreq2")%string eqn:E2.
    + apply String.eqb_eq in E2. cbn.
      split; [intros; contradiction|]. split; [auto|].
      intros _ Hn. contradiction.
    + apply String.eqb_neq in E2. cbn.
      split; [intros; contradiction|]. split; [intros; contradiction|].
      auto.
Qed.

End EventFacts.

(** X18.  Return, Enter, and the loss of focus after a key press store the
    entry of a frequency field: the text is evaluated with the stored
    frequency times [f_S] as the alternative, and the result divided by
    [f_S] becomes [f1] (source "stimFreq1") or [f2] ("stimFreq2"), the
    other frequency staying as it is; [spec_edited] is false afterwards.
    For [f_S] other than 0, an entry that evaluates to the alternative
    leaves the stored frequency unchanged. *)
Theorem entry_stored_normalized
        lfilter_zi safe_eval py_str FMT_format to_html ui fil rng env
        source event w :
  event = KeyPress Key_Return \/ event = KeyPress Key_Enter \/
  (event = FocusOut /\ spec_edited w = Some true) ->
  let r := eventFilter lfilter_zi safe_eval py_str FMT_format to_html ui fil
             rng env source event w in
  let e := engine w in
  let e' := engine (window_of r) in
  spec_edited (window_of r) = Some false /\
  (objectName env source = "stimFreq1"%string ->
   f1 e' = safe_eval (text w source) (f1 e * f_S fil) / f_S fil /\
   f2 e' = f2 e /\
   (f_S fil <> 0 -> safe_eval (text w source) (f1 e * f_S fil) = f1 e * f_S fil
    -> f1 e' = f1 e)) /\
  (objectName env source = "stimFreq2"%string ->
   f2 e' = safe_eval (text w source) (f2 e * f_S fil) / f_S fil /\
   f1 e' = f1 e /\
   (f_S fil <> 0 -> safe_eval (text w source) (f2 e * f_S fil) = f2 e * f_S fil
    -> f2 e' = f2 e)).
Proof.
  intros Hev r e e'. subst r e e'.
  assert (Hstore :
            exists w0,
              spec_edited w0 = Some true /\ engine w0 = engine w /\
              text w0 = text w /\
              eventFilter lfilter_zi safe_eval py_str FMT_format to_html ui
                fil rng env source event w
              = store_entry lfilter_zi safe_eval py_str FMT_format to_html ui
                  fil rng env source w0).
  { destruct Hev as [-> | [-> | [-> Hse]]].
    - exists (with_spec_edited w true). repeat split.
    - exists (with_spec_edited w true). repeat split.
    - exists w. repeat split. exact Hse. }
  destruct Hstore as (w0 & Hse & He & Htx & ->).
  destruct (store_entry_edited lfilter_zi safe_eval py_str FMT_format to_html
              ui fil rng env source w0 Hse) as (Hs & H1 & H2 & _).
  cbv zeta in Hs, H1, H2. rewrite He, Htx in H1, H2.
  split; [exact Hs|]. split.
  - intros Hn. destruct (H1 Hn) as [Hf1 Hf2].
    split; [exact Hf1|]. split; [exact Hf2|].
    intros HfS Halt. rewrite Hf1, Halt. field. exact HfS.
  - intros Hn. destruct (H2 Hn) as [Hf2 Hf1].
    split; [exact Hf2|]. split; [exact Hf1|].
    intros HfS Halt. rewrite Hf2, Halt. field. exact HfS.
Qed.

Lemma entry_stored_normalized_witness :
  f1 (engine (window_of
                (eventFilter Samples.zi_rest Screens.fallback Screens.shown
                   Screens.shown Screens.html (Samples.ui_of "Step" "None" 0)
                   (Samples.fir [1; 0] [1; 0]) Samples.quiet
                   (Screens.boxes true false true true)
                   ledFreq1 (KeyPress Key_Return) Screens.start)))
  = f1 (engine Screens.start).
Proof.
  refine (proj2 (proj2 (proj1 (proj2
            (entry_stored_normalized Samples.zi_rest Screens.fallback
               Screens.shown Screens.shown Screens.html
               (Samples.ui_of "Step" "None" 0) (Samples.fir [1; 0] [1; 0])
               Samples.quiet (Screens.boxes true false true true)
               ledFreq1 (KeyPress Key_Return) Screens.start
               (or_introl eq_refl))) eq_refl)) _ eq_refl).
  simpl. lra.
Defined.

(** X19.  Escape discards an edit: the method returns, [f1], [f2] and
    everything else [calc] computed stay as they are, nothing is drawn,
    the field shows the stored frequency again, [spec_edited] is false, and
    the loss of focus that follows stores and draws nothing. *)
Theorem escape_discards_edit
        lfilter_zi safe_eval py_str FMT_format to_html ui fil rng env
        source w :
  exists w1,
    eventFilter lfilter_zi safe_eval py_str FMT_format to_html ui fil rng env
      source (KeyPress Key_Escape) w = Ok w1 /\
    engine w1 = engine w /\ figure w1 = figure w /\ logged w1 = logged w /\
    spec_edited w1 = Some false /\
    (objectName env source = "stimFreq1"%string ->
     text w1 source = FMT_format (f1 (engine w) * f_S fil)) /\
    (objectName env source = "stimFreq2"%string ->
     text w1 source = FMT_format (f2 (engine w) * f_S fil)) /\
    eventFilter lfilter_zi safe_eval py_str FMT_format to_html ui fil rng env
      source FocusOut w1 = Ok w1.
Proof.
  unfold eventFilter.
  assert (Hself : widget_eqb source source = true) by (destruct source; auto).
  destruct (objectName env source =? "stimFreq1")%string eqn:E1;
    [|destruct (objectName env source =? "stimFreq2")%string eqn:E2];
    eexists; (split; [reflexivity|]);
    cbn [engine figure logged spec_edited text setText with_spec_edited];
    rewrite ?Hself; repeat split;
    try (intros Hn; rewrite Hn in *; discriminate).
Qed.

Lemma escape_discards_edit_witness :
  exists w1,
    eventFilter Samples.zi_rest Screens.fallback Screens.shown Screens.shown
      Screens.html (Samples.ui_of "Step" "None" 0)
      (Samples.fir [1; 0] [1; 0]) Samples.quiet
      (Screens.boxes true false true true) ledFreq1 (KeyPress Key_Escape)
      Screens.start = Ok w1 /\
    text w1 ledFreq1 = Screens.shown (0 * 1).
Proof.
  destruct (escape_discards_edit Samples.zi_rest Screens.fallback
              Screens.shown Screens.shown Screens.html
              (Samples.ui_of "Step" "None" 0) (Samples.fir [1; 0] [1; 0])
              Samples.quiet (Screens.boxes true false true true) ledFreq1
              Screens.start)
    as (w1 & Hok & _ & _ & _ & _ & Ht & _).
  exists w1. split; [exact Hok | exact (Ht eq_refl)].
Defined.

(** X20.  When a frequency field gains the focus, [spec_edited] becomes
    false and the fields are reloaded: the field with the focus shows its
    stored frequency times [f_S] in full precision and the other field keeps
    its text; when neither field has the focus both show the formatted
    value.  The labels and the floor field are not written. *)
Theorem focus_in_reloads_fields
        lfilter_zi safe_eval py_str FMT_format to_html ui fil rng env
        source w :
  exists w1,
    eventFilter lfilter_zi safe_eval py_str FMT_format to_html ui fil rng env
      source FocusIn w = Ok w1 /\
    spec_edited w1 = Some false /\ engine w1 = engine w /\
    figure w1 = figure w /\
    (focus w = Some ledFreq1 ->
     text w1 ledFreq1 = py_str (f1 (engine w) * f_S fil) /\
     text w1 ledFreq2 = text w ledFreq2) /\
    (focus w = Some ledFreq2 ->
     text w1 ledFreq2 = py_str (f2 (engine w) * f_S fil) /\
     text w1 ledFreq1 = text w ledFreq1) /\
    (focus w <> Some ledFreq1 -> focus w <> Some ledFreq2 ->
     text w1 ledFreq1 = FMT_format (f1 (engine w) * f_S fil) /\
     text w1 ledFreq2 = FMT_format (f2 (engine w) * f_S fil)) /\
    text w1 lblFreqUnit1 = text w lblFreqUnit1 /\
    text w1 lblFreqUnit2 = text w lblFreqUnit2 /\
    text w1 ledLogBottom = text w ledLogBottom.
Proof.
  unfold eventFilter. eexists. split; [reflexivity|].
  unfold load_fs. cbn [focus with_spec_edited engine].
  destruct (focus w) as [[| | | |]|] eqn:Ef; cbn;
    repeat split; auto; try discriminate;
    try (exfalso; congruence).
Qed.

Lemma focus_in_reloads_fields_witness :
  exists w1,
    eventFilter Samples.zi_rest Screens.fallback Screens.shown Screens.shown
      Screens.html (Samples.ui_of "Step" "None" 0)
      (Samples.fir [1; 0] [1; 0]) Samples.quiet
      (Screens.boxes true false true true) ledFreq1 FocusIn
      (with_focus Screens.start (Some ledFreq1)) = Ok w1 /\
    text w1 ledFreq2 = EmptyString.
Proof.
  destruct (focus_in_reloads_fields Samples.zi_rest Screens.fallback
              Screens.shown Screens.shown Screens.html
              (Samples.ui_of "Step" "None" 0) (Samples.fir [1; 0] [1; 0])
              Samples.quiet (Screens.boxes true false true true) ledFreq1
              (with_focus Screens.start (Some ledFreq1)))
    as (w1 & Hok & _ & _ & _ & H1 & _).
  exists w1. split; [exact Hok | exact (proj2 (H1 eq_refl))].
Defined.

Section DeliveryFacts.

Variable lfilter_zi : forall K : Type, Field K -> list K -> list K -> list K.
Variable safe_eval : string -> R -> R.
Variable py_str : R -> string.
Variable FMT_format : R -> string.
Variable to_html : string -> string.
Variable ui : PlotImpz_UI.
Variable fil : filter_dict.
Variable rng : np_random.
Variable env : settings.

(** One delivery that is not a key press, to a window without a pending
    edit. *)
Lemma deliver_without_key (d : delivery) (w : window) :
  is_key (event d) = false ->
  spec_edited w <> Some true ->
  let w' := window_of
              (deliver lfilter_zi safe_eval py_str FMT_format to_html ui fil
                 rng env d w) in
  quiet_step w w'.
Proof.
  intros Hk Hse w'. subst w'. unfold deliver, quiet_step.
  set (w0 := match typed d with
             | Some v => setText (with_focus w (focus_now d)) (source d) v
             | None => with_focus w (focus_now d)
             end).
  assert (H0 : engine w0 = engine w /\ figure w0 = figure w /\
               logged w0 = logged w /\ bottom w0 = bottom w /\
               spec_edited w0 = spec_edited w).
  { unfold w0. destruct (typed d); repeat split. }
  destruct H0 as (He & Hf & Hl & Hb & Hs).
  unfold eventFilter. destruct (event d) as [|k| |]; [|discriminate| |].
  - cbn [window_of].
    destruct (load_fs_frame py_str FMT_format fil (with_spec_edited w0 false))
      as (E1 & E2 & _ & E4 & _ & E6 & E7).
    rewrite E1, E2, E4, E6, E7. cbn. repeat split; auto. discriminate.
  - unfold store_entry. rewrite Hs.
    destruct (spec_edited w) as [[|]|]; [now elim Hse| |];
      cbn [window_of]; rewrite He, Hf, Hl, Hb, Hs; repeat split; auto.
  - cbn [window_of]. rewrite He, Hf, Hl, Hb, Hs. repeat split; auto.
Qed.

End DeliveryFacts.

(** X21.  Without a key press nothing is stored or drawn: after any
    sequence of focus changes and other events, with typed text or not,
    delivered to a window without a pending edit, the attributes computed
    by [calc], with [f1] and [f2], the figure, the floor and the error log
    are as before, and no edit is pending. *)
Theorem events_without_keys_change_nothing
        lfilter_zi safe_eval py_str FMT_format to_html ui fil rng env ds w :
  Forall (fun d => is_key (event d) = false) ds ->
  spec_edited w <> Some true ->
  quiet_step w
    (deliver_all lfilter_zi safe_eval py_str FMT_format to_html ui fil rng
       env ds w).
Proof.
  intros Hall. revert w. induction Hall as [|d ds Hd _ IH]; intros w Hse.
  - unfold quiet_step. repeat split. exact Hse.
  - cbn [deliver_all].
    pose proof (deliver_without_key lfilter_zi safe_eval py_str FMT_format
                  to_html ui fil rng env d w Hd Hse) as Hstep.
    cbv zeta in Hstep.
    set (w1 := window_of (deliver lfilter_zi safe_eval py_str FMT_format
                            to_html ui fil rng env d w)) in *.
    assert (Hse1 : spec_edited w1 <> Some true) by apply Hstep.
    specialize (IH w1 Hse1).
    unfold quiet_step in *.
    destruct Hstep as (A1 & A2 & A3 & A4 & _).
    destruct IH as (B1 & B2 & B3 & B4 & B5).
    split; [congruence|]. split; [congruence|]. split; [congruence|].
    split; [congruence | exact B5].
Qed.

Lemma events_without_keys_change_nothing_witness :
  quiet_step Screens.start
    (deliver_all Samples.zi_rest Screens.fallback Screens.shown Screens.shown
       Screens.html (Samples.ui_of "Step" "None" 0)
       (Samples.fir [1; 0] [1; 0]) Samples.quiet
       (Screens.boxes true false true true)
       [ {| source := ledFreq1; event := FocusIn;
            focus_now := Some ledFreq1; typed := None |};
         {| source := ledFreq1; event := FocusOut;
            focus_now := None; typed := Some "0.25"%string |} ]
       Screens.start).
Proof.
  apply events_without_keys_change_nothing.
  - repeat constructor.
  - discriminate.
Defined.
